(** * Table extraction from worksheet grids

    A shallow embedding of the table-extraction code of the
    [excel_extractor] functions:

    - [FunctionApp]     : excel_extractor/function_app.py
    - [Updated]         : excel_extractor/Updated.py
    - [TableExtractor]  : excel_extractor/event_trigger/table_extractor.py
    - [EventTrigger]    : excel_extractor/event_trigger/function_app.py

    Read-only code is embedded as pure functions over the values it
    reads.  Code that creates or mutates Python lists and data frames
    is embedded over an explicit store of objects, so that aliasing
    between the caller's table and the returned table is visible. *)

From Stdlib Require Import QArith Ascii.
From stdpp Require Import base list strings pretty gmap.

Local Open Scope nat_scope.

(** ** Python values *)

(** A worksheet cell as the readers hand it over: [None], a [str], an
    [int] or a [bool].  Characters of a string are code points below
    256.  Floating-point cells are left out: their rendering is not
    needed by any statement below. *)
Inductive Cell : Type :=
  | CNone
  | CStr (s : string)
  | CInt (z : Z)
  | CBool (b : bool).

Global Instance Cell_eq_dec : EqDecision Cell.
Proof. solve_decision. Defined.

(** [str(cell)] *)
Definition str (c : Cell) : string :=
  match c with
  | CNone => "None"
  | CStr s => s
  | CInt z => pretty z
  | CBool true => "True"
  | CBool false => "False"
  end.

(** Truth value of a cell, as tested by [if cell]. *)
Definition truthy (c : Cell) : bool :=
  match c with
  | CNone => false
  | CStr s => negb (String.eqb s "")
  | CInt z => negb (Z.eqb z 0)
  | CBool b => b
  end.

(** [c.isspace()] for one code point below 256. *)
Definition isspace (c : ascii) : bool :=
  let n := nat_of_ascii c in
  ((9 <=? n) && (n <=? 13)) || ((28 <=? n) && (n <=? 32))
  || (n =? 133) || (n =? 160).

Fixpoint lstrip (s : string) : string :=
  match s with
  | "" => ""
  | String c s' => if isspace c then lstrip s' else s
  end.

Fixpoint rstrip (s : string) : string :=
  match s with
  | "" => ""
  | String c s' =>
      match rstrip s' with
      | "" => if isspace c then "" else String c ""
      | r => String c r
      end
  end.

(** [s.strip()] *)
Definition strip (s : string) : string := rstrip (lstrip s).

(** [s.strip() == ""] *)
Definition blank (s : string) : bool := String.eqb (strip s) "".

(** [cell is None] *)
Definition is_None (c : Cell) : bool :=
  match c with CNone => true | _ => false end.

(** [sum(1 for x in l if p x)] *)
Fixpoint count_if {A} (p : A → bool) (l : list A) : nat :=
  match l with
  | [] => 0
  | x :: l' => (if p x then 1 else 0) + count_if p l'
  end.

(** First index [i + k] such that the [k]-th element of [l] satisfies
    [p]: a [for] loop over [l] that leaves at its first hit, the
    loop counter starting at [i]. *)
Fixpoint scan_from {A} (p : A → bool) (i : nat) (l : list A) : option nat :=
  match l with
  | [] => None
  | x :: l' => if p x then Some i else scan_from p (S i) l'
  end.

(** Comparison of a count with a float product [t * n], and of a
    float quotient [k / n] with a float [t].  The thresholds of the
    code are decimal fractions [0.8] and [0.3]; for counts below
    [2^50] the rounded float comparison agrees with the exact
    rational one (a quotient or product that is not exactly on the
    threshold is further from it than any rounding error, and one
    that is exactly on it rounds to the float of the threshold), so
    the thresholds are kept as rationals. *)
Definition as_float (n : nat) : Q := inject_Z (Z.of_nat n).

(** [k >= t * n] *)
Definition ge_times (k : nat) (t : Q) (n : nat) : bool :=
  Qle_bool (t * as_float n) (as_float k).

(** [k / n], for [n > 0] *)
Definition ratio (k n : nat) : Q := (Z.of_nat k # Pos.of_nat n)%Q.

(** ** Exceptions *)

Inductive exn : Type := IndexError | TypeError | ValueError.

Inductive Res (A : Type) : Type :=
  | Ok (a : A)
  | Raise (e : exn).
Global Arguments Ok {A} a.
Global Arguments Raise {A} e.

Global Instance Res_ret : MRet Res := λ A a, Ok a.
Global Instance Res_bind : MBind Res := λ A B f m,
  match m with
  | Ok a => f a
  | Raise e => Raise e
  end.

(** [l[i]] for [0 <= i] *)
Definition py_index {A} (l : list A) (i : nat) : Res A :=
  match l !! i with
  | Some x => Ok x
  | None => Raise IndexError
  end.

(** The detected table: the dictionary with keys [headers] and [data].
    The empty dictionary [{}] is [None] of [option Table]. *)
Record Table : Type := mkTable {
  headers : list string;
  data : list (list Cell)
}.

(** ** The store of Python objects

    Lists and data frames are objects with an identity: a variable
    holds a reference, and two references to one object see each
    other's updates. *)

Abbreviation loc := nat (only parsing).

Inductive obj : Type :=
  | ORow (cells : list Cell)
  | OList (items : list loc)
  | OFrame (columns : list string) (values : list (list Cell)).

Abbreviation heap := (gmap nat obj) (only parsing).

(** A computation that reads and updates the store and may raise. *)
Definition Py (A : Type) : Type := heap → Res (A * heap).

Global Instance Py_ret : MRet Py := λ A a h, Ok (a, h).
Global Instance Py_bind : MBind Py := λ A B f m h,
  match m h with
  | Ok (a, h') => f a h'
  | Raise e => Raise e
  end.

Definition lift {A} (r : Res A) : Py A := λ h,
  match r with
  | Ok a => Ok (a, h)
  | Raise e => Raise e
  end.

(** A new object, at a reference no object has yet. *)
Definition alloc (o : obj) : Py loc := λ h,
  let l := fresh (dom h) in Ok (l, <[l := o]> h).

Definition get_row (l : loc) : Py (list Cell) := λ h,
  match h !! l with
  | Some (ORow cells) => Ok (cells, h)
  | _ => Raise TypeError
  end.

Definition get_list (l : loc) : Py (list loc) := λ h,
  match h !! l with
  | Some (OList items) => Ok (items, h)
  | _ => Raise TypeError
  end.

(** [row.append(c)] *)
Definition row_append (l : loc) (c : Cell) : Py unit := λ h,
  match h !! l with
  | Some (ORow cells) => Ok ((), <[l := ORow (cells ++ [c])]> h)
  | _ => Raise TypeError
  end.

(** [rows.append(r)] *)
Definition list_append (l : loc) (r : loc) : Py unit := λ h,
  match h !! l with
  | Some (OList items) => Ok ((), <[l := OList (items ++ [r])]> h)
  | _ => Raise TypeError
  end.

(** [for x in l: body(x)] *)
Fixpoint for_ {A} (l : list A) (body : A → Py unit) : Py unit :=
  match l with
  | [] => mret ()
  | x :: l' => body x ;; for_ l' body
  end.

(** The cells of the row objects [ls]. *)
Definition read_rows (h : heap) (ls : list loc) : option (list (list Cell)) :=
  mapM (λ l, match h !! l with
             | Some (ORow cells) => Some cells
             | _ => None
             end) ls.

(** The value of the list of rows at [t]: what a reader of the grid or
    of the table sees through the reference [t]. *)
Definition read_table (h : heap) (t : loc) : option (list (list Cell)) :=
  match h !! t with
  | Some (OList items) => read_rows h items
  | _ => None
  end.

(** The value of the list of rows at [t], read inside a computation. *)
Definition snapshot (t : loc) : Py (list (list Cell)) := λ h,
  match read_table h t with
  | Some v => Ok (v, h)
  | None => Raise TypeError
  end.

(** [df[name] = value] of pandas, for a scalar [value]: a column of
    that name is overwritten where it stands, a new name is appended
    as the last column. *)
Definition set_column (name : string) (value : Cell)
    (frame : list string * list (list Cell)) : list string * list (list Cell) :=
  let '(columns, values) := frame in
  if bool_decide (name ∈ columns)
  then (columns,
        map (λ row, zip_with (λ col cell, if String.eqb col name then value else cell)
                      columns row) values)
  else (columns ++ [name], map (λ row, row ++ [value]) values).

(** An update of the data frame at [df], in place. *)
Definition frame_update (df : loc)
    (f : list string * list (list Cell) → list string * list (list Cell)) : Py unit := λ h,
  match h !! df with
  | Some (OFrame columns values) =>
      let '(columns', values') := f (columns, values) in
      Ok ((), <[df := OFrame columns' values']> h)
  | _ => Raise TypeError
  end.

(** [f"Column_{col_idx + 1}"] *)
Definition column_label (col_idx : nat) : string :=
  "Column_" +:+ pretty (col_idx + 1).

(** [rows[row_idx][col_idx]] *)
Definition cell_at (rows : list (list Cell)) (row_idx col_idx : nat) : Res Cell :=
  row ← py_index rows row_idx; py_index row col_idx.

(** ** excel_extractor/function_app.py *)

Module FunctionApp.

(** [cell is not None and str(cell).strip() != ''] *)
Definition non_empty (cell : Cell) : bool :=
  negb (is_None cell) && negb (blank (str cell)).

(** [cell is None or str(cell).strip() == ''] *)
Definition empty (cell : Cell) : bool :=
  is_None cell || blank (str cell).

(** The header loop of [detect_table_in_worksheet]: the first
    [row_idx] with [non_empty >= 0.8 * num_cols]. *)
Definition find_header_row (rows : list (list Cell)) (num_cols : nat) : option nat :=
  scan_from (λ row, ge_times (count_if non_empty row) (8 # 10) num_cols) 0 rows.

(** The end loop: [end_row] starts as [len(rows) - 1] and becomes
    [row_idx - 1] at the first [row_idx] in
    [range(header_row + 1, len(rows))] with [empty >= 0.8 * num_cols]. *)
Definition find_end_row (rows : list (list Cell)) (num_cols header_row : nat) : nat :=
  match scan_from (λ row, ge_times (count_if empty row) (8 # 10) num_cols)
          (header_row + 1) (drop (header_row + 1) rows) with
  | Some row_idx => row_idx - 1
  | None => length rows - 1
  end.

(** [str(header) if header is not None else f"Column_{col_idx + 1}"] *)
Definition header_label (header : Cell) (col_idx : nat) : string :=
  if negb (is_None header) then str header else column_label col_idx.

(** The list of the headers: one label for each [col_idx] in
    [range(num_cols)], read from [rows[header_row][col_idx]]. *)
Definition make_headers (rows : list (list Cell)) (header_row num_cols : nat)
    : Res (list string) :=
  mapM (λ col_idx,
      header ← cell_at rows header_row col_idx;
      mret (header_label header col_idx))
    (seq 0 num_cols).

(** The list of the data rows: [rows[row_idx][col_idx]] for each
    [row_idx] in [range(header_row + 1, end_row + 1)] and each
    [col_idx] in [range(num_cols)]. *)
Definition make_data (rows : list (list Cell)) (header_row end_row num_cols : nat)
    : Res (list (list Cell)) :=
  mapM (λ row_idx,
      mapM (λ col_idx, cell_at rows row_idx col_idx) (seq 0 num_cols))
    (seq (header_row + 1) (end_row - header_row)).

Definition detect_table_in_worksheet (rows : list (list Cell)) : Res (option Table) :=
  match rows with
  | [] => Ok None
  | row0 :: _ =>
      let num_cols := length row0 in
      if num_cols =? 0 then Ok None else
      match find_header_row rows num_cols with
      | None => Ok None
      | Some header_row =>
          let end_row := find_end_row rows num_cols header_row in
          if end_row <=? header_row then Ok None else
          headers ← make_headers rows header_row num_cols;
          data ← make_data rows header_row end_row num_cols;
          mret (Some (mkTable headers data))
      end
  end.

End FunctionApp.

(** ** excel_extractor/Updated.py *)

Module Updated.

(** [str(cell).strip() != ""] *)
Definition non_empty (cell : Cell) : bool := negb (blank (str cell)).

(** [str(cell).strip() == ""] *)
Definition empty (cell : Cell) : bool := blank (str cell).

(** The header loop of [detect_table_from_rows]. *)
Definition find_header_row (rows : list (list Cell)) (num_cols : nat) : option nat :=
  scan_from (λ row, ge_times (count_if non_empty row) (8 # 10) num_cols) 0 rows.

(** The end loop of [detect_table_from_rows]. *)
Definition find_end_row (rows : list (list Cell)) (num_cols header_row : nat) : nat :=
  match scan_from (λ row, ge_times (count_if empty row) (8 # 10) num_cols)
          (header_row + 1) (drop (header_row + 1) rows) with
  | Some row_idx => row_idx - 1
  | None => length rows - 1
  end.

(** [str(x) if x else f"Column_{col_idx + 1}"] *)
Definition header_label (header : Cell) (col_idx : nat) : string :=
  if truthy header then str header else column_label col_idx.

(** The list of the headers: one label for each [col_idx] in
    [range(num_cols)], read from [rows[header_row][col_idx]]. *)
Definition make_headers (rows : list (list Cell)) (header_row num_cols : nat)
    : Res (list string) :=
  mapM (λ col_idx,
      header ← cell_at rows header_row col_idx;
      mret (header_label header col_idx))
    (seq 0 num_cols).

(** The list of the data rows: [rows[row_idx][col_idx]] for each
    [row_idx] in [range(header_row + 1, end_row + 1)] and each
    [col_idx] in [range(num_cols)]. *)
Definition make_data (rows : list (list Cell)) (header_row end_row num_cols : nat)
    : Res (list (list Cell)) :=
  mapM (λ row_idx,
      mapM (λ col_idx, cell_at rows row_idx col_idx) (seq 0 num_cols))
    (seq (header_row + 1) (end_row - header_row)).

Definition detect_table_from_rows (rows : list (list Cell)) : Res (option Table) :=
  match rows with
  | [] => Ok None
  | row0 :: _ =>
      let num_cols := length row0 in
      if num_cols =? 0 then Ok None else
      match find_header_row rows num_cols with
      | None => Ok None
      | Some header_row =>
          let end_row := find_end_row rows num_cols header_row in
          if end_row <=? header_row then Ok None else
          headers ← make_headers rows header_row num_cols;
          data ← make_data rows header_row end_row num_cols;
          mret (Some (mkTable headers data))
      end
  end.

(** [detect_table_in_worksheet] hands the rows of the worksheet to
    [detect_table_from_rows]. *)
Definition detect_table_in_worksheet (rows : list (list Cell)) : Res (option Table) :=
  detect_table_from_rows rows.

(** [pd.DataFrame(table['data'], columns=table['headers'])].  The
    frame holds its own copy of the cells.  Rows of [detect_table_from_rows]
    all have [len(headers)] cells; what pandas does with other shapes
    is not modelled beyond the error. *)
Definition table_to_dataframe (table : Table) : Py loc :=
  if forallb (λ row, length row =? length (headers table)) (data table)
  then alloc (OFrame (headers table) (data table))
  else lift (Raise ValueError).

Definition transform_dataframe (df : loc) (sheet_name filename : string) : Py loc :=
  frame_update df (λ '(columns, values), (map strip columns, values)) ;;
  frame_update df (set_column "source_file" (CStr filename)) ;;
  frame_update df (set_column "source_sheet" (CStr sheet_name)) ;;
  mret df.

End Updated.

(** ** excel_extractor/event_trigger/table_extractor.py *)

Module TableExtractor.

(** The fields set by [__init__]. *)
Record ExcelTableExtractor : Type := mkExtractor {
  value_threshold : Q;
  empty_threshold : Q
}.

(** [ExcelTableExtractor()] with the default arguments. *)
Definition default : ExcelTableExtractor := mkExtractor (8 # 10) (3 # 10).

(** [s.split(sep)] for a one-character separator. *)
Fixpoint split (sep : ascii) (s : string) : list string :=
  match s with
  | "" => [""]
  | String c s' =>
      if Ascii.eqb c sep then "" :: split sep s'
      else match split sep s' with
           | part :: parts => String c part :: parts
           | [] => [String c ""]
           end
  end.

(** The body of the [try]: no statement of it raises on a [str]. *)
Definition extract_group_id (blob_name : string) : string :=
  let parts := split "_" blob_name in
  if 2 <=? length parts then nth 1 parts "" else "".

(** [cell is not None and str(cell).strip() != ''] *)
Definition non_empty (cell : Cell) : bool :=
  negb (is_None cell) && negb (blank (str cell)).

(** [row + [None] * (cols - len(row))] when [len(row) < cols] *)
Definition pad_row (row : list Cell) (cols : nat) : list Cell :=
  if length row <? cols then row ++ replicate (cols - length row) CNone else row.

(** [max(len(row) for row in data)] *)
Definition max_len (data : list (list Cell)) : nat :=
  foldr Nat.max 0 (map length data).

(** The header loop of [find_table_boundaries]. *)
Definition find_header_row (self : ExcelTableExtractor)
    (data : list (list Cell)) (cols : nat) : option nat :=
  scan_from (λ row, Qle_bool (value_threshold self)
                      (ratio (count_if non_empty (pad_row row cols)) cols))
    0 data.

(** The end loop: [table_end] is [i - 1] at the first [i] in
    [range(header_row + 1, rows)] with
    [non_empty_count / cols < self.empty_threshold], and [rows - 1]
    when there is none. *)
Definition find_table_end (self : ExcelTableExtractor)
    (data : list (list Cell)) (cols header_row : nat) : nat :=
  match scan_from (λ row, negb (Qle_bool (empty_threshold self)
                             (ratio (count_if non_empty (pad_row row cols)) cols)))
          (header_row + 1) (drop (header_row + 1) data) with
  | Some i => i - 1
  | None => length data - 1
  end.

(** The inner loop over [range(header_row, table_end + 1)]: the
    conjunction [row < len(data) and col < len(data[row]) and ...]
    guards both subscripts, so a missing row or cell is [False]. *)
Definition has_data (data : list (list Cell)) (header_row table_end col : nat) : bool :=
  existsb (λ row,
      match data !! row with
      | Some r => match r !! col with
                  | Some cell => non_empty cell
                  | None => false
                  end
      | None => false
      end)
    (seq header_row (table_end + 1 - header_row)).

Definition find_table_boundaries (self : ExcelTableExtractor)
    (data : list (list Cell)) : option (nat * nat * nat * nat) :=
  match data with
  | [] => None
  | _ :: _ =>
      let rows := length data in
      let cols := max_len data in
      if cols =? 0 then None else
      match find_header_row self data cols with
      | None => None
      | Some header_row =>
          let table_end := find_table_end self data cols header_row in
          let start_col :=
            match List.find (has_data data header_row table_end) (seq 0 cols) with
            | Some col => col
            | None => 0
            end in
          let end_col :=
            match List.find (has_data data header_row table_end) (rev (seq 0 cols)) with
            | Some col => col
            | None => cols - 1
            end in
          Some (header_row, table_end, start_col, end_col)
      end
  end.

(** The cells that [extract_table_data] puts into one [table_row]:
    [row] padded with [None] up to index [end_col] when
    [len(row) <= end_col], then [row[start_col:end_col + 1]]. *)
Definition table_row (row : list Cell) (start_col end_col : nat) : list Cell :=
  let row := if length row <=? end_col
             then row ++ replicate (end_col - length row + 1) CNone
             else row in
  drop start_col (take (end_col + 1) row).

(** The body of the loop of [extract_table_data].  The padded copy
    [row + [None] * ...] is a temporary and is not given a reference;
    the slice [table_row] is a new list.  The bounds are natural
    numbers: they are the bounds that [find_table_boundaries]
    returns, which are never negative, and indices that count from
    the end of a list are not covered. *)
Definition copy_row (data table_data : loc) (start_col end_col row_idx : nat) : Py unit :=
  items ← get_list data;
  if row_idx <? length items then
    r ← lift (py_index items row_idx);
    row ← get_row r;
    new_row ← alloc (ORow (table_row row start_col end_col));
    list_append table_data new_row
  else mret ().

Definition extract_table_data (data : loc) (boundaries : nat * nat * nat * nat) : Py loc :=
  let '(start_row, end_row, start_col, end_col) := boundaries in
  table_data ← alloc (OList []);
  for_ (seq start_row (end_row + 1 - start_row))
    (copy_row data table_data start_col end_col) ;;
  mret table_data.

(** [table_data and any(cell is not None and str(cell).strip() != ''
    for cell in table_data[0])] *)
Definition has_header (table_data : loc) : Py bool :=
  items ← get_list table_data;
  if length items =? 0 then mret false else
  r0 ← lift (py_index items 0);
  first ← get_row r0;
  mret (existsb non_empty first).

(** [table_data[0].append("Group")] *)
Definition append_group_header (table_data : loc) : Py unit :=
  items ← get_list table_data;
  r0 ← lift (py_index items 0);
  row_append r0 (CStr "Group").

(** [table_data[i].append(group_id)] *)
Definition append_group_id (table_data : loc) (group_id : string) (i : nat) : Py unit :=
  items ← get_list table_data;
  r ← lift (py_index items i);
  row_append r (CStr group_id).

Definition add_group_column (table_data : loc) (group_id : string) : Py loc :=
  items ← get_list table_data;
  if length items =? 0 then mret table_data else
  b ← has_header table_data;
  (if b : bool then append_group_header table_data
   else
     items ← get_list table_data;
     if negb (length items =? 0) then append_group_header table_data
     else
       r ← alloc (ORow [CStr "Group"]);
       list_append table_data r) ;;
  b ← has_header table_data;
  items ← get_list table_data;
  for_ (seq (if b : bool then 1 else 0) (length items - (if b : bool then 1 else 0)))
    (append_group_id table_data group_id) ;;
  mret table_data.

(** One turn of the loop over the sheets in [process_excel_content],
    from the sheet data that was read to the table that is handed to
    [table_to_csv_bytes]; [None] is [continue]. *)
Definition process_sheet (self : ExcelTableExtractor)
    (sheet_data : loc) (group_id : string) : Py (option loc) :=
  items ← get_list sheet_data;
  if length items =? 0 then mret None else
  data ← snapshot sheet_data;
  match find_table_boundaries self data with
  | None => mret None
  | Some boundaries =>
      table_data ← extract_table_data sheet_data boundaries;
      items ← get_list table_data;
      if length items =? 0 then mret None else
      table_data_with_group ← add_group_column table_data group_id;
      mret (Some table_data_with_group)
  end.

End TableExtractor.

(** ** excel_extractor/event_trigger/function_app.py *)

Module EventTrigger.

(** [extractor = ExcelTableExtractor()] *)
Definition extractor : TableExtractor.ExcelTableExtractor := TableExtractor.default.

(** [s[i:]] *)
Fixpoint sdrop (i : nat) (s : string) : string :=
  match i, s with
  | O, _ => s
  | S i', String _ s' => sdrop i' s'
  | S _, "" => ""
  end.

(** [s[:i]] *)
Fixpoint stake (i : nat) (s : string) : string :=
  match i, s with
  | O, _ => ""
  | S i', String c s' => String c (stake i' s')
  | S _, "" => ""
  end.

(** [s.rfind(c)] where the first character of [s] has index [i];
    [-1] when [c] does not occur. *)
Fixpoint rfind_from (c : ascii) (i : Z) (s : string) : Z :=
  match s with
  | "" => (-1)%Z
  | String x s' =>
      let r := rfind_from c (i + 1) s' in
      if (r =? -1)%Z then (if Ascii.eqb x c then i else (-1)%Z) else r
  end.

Definition rfind (c : ascii) (s : string) : Z := rfind_from c 0 s.

(** [os.path.basename(p)]: [p[p.rfind('/') + 1:]] *)
Definition basename (p : string) : string :=
  sdrop (Z.to_nat (rfind "/" p + 1)) p.

(** Some character of [s] differs from [c]. *)
Fixpoint some_other (c : ascii) (s : string) : bool :=
  match s with
  | "" => false
  | String x s' => negb (Ascii.eqb x c) || some_other c s'
  end.

(** [os.path.splitext(p)[1]]: from the last dot of the last path
    component on, unless that component has only dots before it. *)
Definition splitext_ext (p : string) : string :=
  let sepIndex := rfind "/" p in
  let dotIndex := rfind "." p in
  if (sepIndex <? dotIndex)%Z
  then if some_other "." (stake (Z.to_nat dotIndex - Z.to_nat (sepIndex + 1))
                            (sdrop (Z.to_nat (sepIndex + 1)) p))
       then sdrop (Z.to_nat dotIndex) p
       else ""
  else "".

(** [c.lower()] for one code point below 256. *)
Definition lower_char (c : ascii) : ascii :=
  let n := nat_of_ascii c in
  if ((65 <=? n) && (n <=? 90)) || ((192 <=? n) && (n <=? 222) && negb (n =? 215))
  then ascii_of_nat (n + 32) else c.

(** [s.lower()] *)
Fixpoint lower (s : string) : string :=
  match s with
  | "" => ""
  | String c s' => String (lower_char c) (lower s')
  end.

(** The group identifier that [ExcelTableExtractorFunction] makes
    [process_excel_content] compute for the blob [blob_name]: [None]
    when the function returns at the check of the extension. *)
Definition event_group_id (blob_name : string) : option string :=
  let file_extension := lower (splitext_ext blob_name) in
  if negb (bool_decide (file_extension ∈ [".xls"; ".xlsx"])) then None
  else Some (TableExtractor.extract_group_id (basename blob_name)).

End EventTrigger.

(** ** Notions used by the statements *)

(** A cell is empty when it is absent or its string is blank. *)
Definition spec_empty (cell : Cell) : bool :=
  is_None cell || blank (str cell).

(** The fraction of non-empty cells of [row] over [num_cols] columns,
    a short row being padded with empty cells. *)
Definition spec_fraction (row : list Cell) (num_cols : nat) : Q :=
  ratio (count_if (λ cell, negb (spec_empty cell))
           (row ++ replicate (num_cols - length row) CNone))
        num_cols.

(** The first row whose fraction of non-empty cells is at least [0.8]. *)
Definition spec_header_row (rows : list (list Cell)) (num_cols : nat) : option nat :=
  scan_from (λ row, Qle_bool (8 # 10) (spec_fraction row num_cols)) 0 rows.

(** The header that the specification gives to the cell at [col_idx]. *)
Definition spec_header (col_idx : nat) (cell : Cell) : string :=
  if spec_empty cell then column_label col_idx else strip (str cell).

(** [c] occurs in [s]. *)
Fixpoint contains (c : ascii) (s : string) : bool :=
  match s with
  | "" => false
  | String x s' => Ascii.eqb x c || contains c s'
  end.

(** [sep.join(parts)] *)
Fixpoint join (sep : ascii) (parts : list string) : string :=
  match parts with
  | [] => ""
  | [part] => part
  | part :: parts' => part +:+ String sep (join sep parts')
  end.

(** The row objects [ls] hold the rows [vals]. *)
Definition rows_at (h : heap) (ls : list loc) (vals : list (list Cell)) : Prop :=
  Forall2 (λ l v, h !! l = Some (ORow v)) ls vals.

(** The rows that [extract_table_data] copies out of [data]. *)
Definition sliced (data : list (list Cell)) (boundaries : nat * nat * nat * nat)
    : list (list Cell) :=
  let '(start_row, end_row, start_col, end_col) := boundaries in
  map (λ row, TableExtractor.table_row row start_col end_col)
      (take (end_row + 1 - start_row) (drop start_row data)).

(** The table with the column that [add_group_column] adds. *)
Definition with_group (group_id : string) (table : list (list Cell)) : list (list Cell) :=
  match table with
  | [] => []
  | header :: body =>
      (header ++ [CStr "Group"]) :: map (λ row, row ++ [CStr group_id]) body
  end.

(** The frame that [transform_dataframe] leaves: trimmed headers, then
    the two columns of the source. *)
Definition transformed (columns : list string) (values : list (list Cell))
    (sheet_name filename : string) : list string * list (list Cell) :=
  set_column "source_sheet" (CStr sheet_name)
    (set_column "source_file" (CStr filename) (map strip columns, values)).

(** ** Grids of the examples *)

(** The grid of a sheet whose first row is blank, as openpyxl hands
    it over: a blank cell is [None]. *)
Definition blank_first_row : list (list Cell) :=
  [ [CNone; CNone; CNone];
    [CStr "ID"; CStr "Name"; CStr "Qty"];
    [CStr "1"; CStr "A"; CStr "5"] ].

(** The grid of the end-to-end scenario. *)
Definition scenario : list (list Cell) :=
  [ [CStr ""; CStr ""; CStr ""];
    [CStr "ID"; CStr "Name"; CStr "Qty"];
    [CStr "1"; CStr "A"; CStr "5"];
    [CStr "2"; CStr "B"; CStr "3"];
    [CStr ""; CStr ""; CStr ""];
    [CStr "x"; CStr "y"; CStr "z"] ].

(** A grid of one full row. *)
Definition header_only : list (list Cell) :=
  [ [CStr "a"; CStr "b"; CStr "c"] ].

(** A grid whose first row has no columns. *)
Definition empty_first_row : list (list Cell) :=
  [ []; [CStr "a"; CStr "b"]; [CStr "1"; CStr "2"] ].

(** A grid of five columns whose header row has a cell of blanks. *)
Definition blank_header_cell : list (list Cell) :=
  [ [CStr " "; CStr "b"; CStr "c"; CStr "d"; CStr "e"];
    [CStr "1"; CStr "2"; CStr "3"; CStr "4"; CStr "5"] ].

(** A grid whose second row has one cell. *)
Definition short_row : list (list Cell) :=
  [ [CStr "a"; CStr "b"; CStr "c"]; [CStr "x"] ].

(** A store with the table of a header [h] and one data row [x]: the
    list of rows at reference 0, its rows at references 1 and 2. *)
Definition small_table : heap :=
  <[0 := OList [1; 2]]> (<[1 := ORow [CStr "h"]]> (<[2 := ORow [CStr "x"]]> ∅)).

(** A store with the grid [short_row] at reference 0. *)
Definition short_row_sheet : heap :=
  <[0 := OList [1; 2]]>
    (<[1 := ORow [CStr "a"; CStr "b"; CStr "c"]]> (<[2 := ORow [CStr "x"]]> ∅)).

(** The sheet [short_row_sheet] processed for a file name without
    group identifier. *)
Definition short_row_run : Res (option loc * heap) :=
  TableExtractor.process_sheet TableExtractor.default 0 "" short_row_sheet.

Definition short_row_table : loc :=
  match short_row_run with
  | Ok (Some t, _) => t
  | _ => 0
  end.

Definition short_row_store : heap :=
  match short_row_run with
  | Ok (_, h) => h
  | Raise _ => ∅
  end.

(** ** Names of files and the flow of one sheet *)

(** [s.endswith(suffix)] *)
Definition endswith (s suffix : string) : bool :=
  (String.length suffix <=? String.length s) &&
  String.eqb (EventTrigger.sdrop (String.length s - String.length suffix) s) suffix.

(** Every character of [s] satisfies [p]. *)
Fixpoint all_chars (p : ascii → bool) (s : string) : bool :=
  match s with
  | "" => true
  | String c s' => p c && all_chars p s'
  end.

(** [os.path.splitext(p)[0]]: what is left of [p] before the
    extension that [EventTrigger.splitext_ext] finds. *)
Definition splitext_root (p : string) : string :=
  let sepIndex := EventTrigger.rfind "/" p in
  let dotIndex := EventTrigger.rfind "." p in
  if (sepIndex <? dotIndex)%Z
  then if EventTrigger.some_other "."
            (EventTrigger.stake (Z.to_nat dotIndex - Z.to_nat (sepIndex + 1))
               (EventTrigger.sdrop (Z.to_nat (sepIndex + 1)) p))
       then EventTrigger.stake (Z.to_nat dotIndex) p
       else p
  else p.

(** excel_extractor/Updated.py, the code around the detection. *)
Module UpdatedFiles.

(** [filename.lower().endswith(('.xls', '.xlsx'))] *)
Definition is_excel_file (filename : string) : bool :=
  endswith (EventTrigger.lower filename) ".xls"
  || endswith (EventTrigger.lower filename) ".xlsx".

(** The name that [save_dataframe_to_blob] gives to the blob:
    [f"processed/{original_name}_{sheet_name}.csv"]. *)
Definition output_blob_name (original_blob_name sheet_name : string) : string :=
  let original_name := splitext_root (EventTrigger.basename original_blob_name) in
  "processed/" +:+ original_name +:+ "_" +:+ sheet_name +:+ ".csv".

(** One turn of the loop over the sheets in [process_excel_file], from
    the rows of the sheet to the frame that is handed to
    [save_dataframe_to_blob]; [None] is [continue]. *)
Definition process_worksheet (rows : list (list Cell)) (sheet_name blob_name : string)
    : Py (option loc) :=
  table ← lift (Updated.detect_table_from_rows rows);
  match table with
  | None => mret None
  | Some table =>
      df ← Updated.table_to_dataframe table;
      df ← Updated.transform_dataframe df sheet_name blob_name;
      mret (Some df)
  end.

End UpdatedFiles.

(** excel_extractor/event_trigger/function_app.py, the code around
    the extraction. *)
Module EventTriggerFiles.

(** The container and the name of the blob in the path of the URL:
    [None] when the path has fewer than three parts. *)
Definition parse_blob_path (blob_path : string) : option (string * string) :=
  let path_parts := TableExtractor.split "/" blob_path in
  if length path_parts <? 3 then None
  else Some (nth 1 path_parts "", join "/" (drop 2 path_parts)).

(** [c.isalnum()] for one code point below 256: the digits and
    letters of ASCII, the letters of Latin-1, and the superscript
    digits and fractions of Latin-1. *)
Definition isalnum (c : ascii) : bool :=
  let n := nat_of_ascii c in
  ((48 <=? n) && (n <=? 57)) || ((65 <=? n) && (n <=? 90))
  || ((97 <=? n) && (n <=? 122))
  || (n =? 170) || (n =? 178) || (n =? 179) || (n =? 181) || (n =? 185)
  || (n =? 186) || ((188 <=? n) && (n <=? 190))
  || ((192 <=? n) && (n <=? 214)) || ((216 <=? n) && (n <=? 246))
  || ((248 <=? n) && (n <=? 255)).

(** ["".join(c if c.isalnum() else "_" for c in sheet_name)] *)
Fixpoint safe_sheet_name (sheet_name : string) : string :=
  match sheet_name with
  | "" => ""
  | String c rest =>
      String (if isalnum c then c else "_"%char) (safe_sheet_name rest)
  end.

(** [f"{base_name}_{safe_sheet_name}_table.csv"] *)
Definition output_blob_name (blob_name sheet_name : string) : string :=
  let base_name := splitext_root (EventTrigger.basename blob_name) in
  base_name +:+ "_" +:+ safe_sheet_name sheet_name +:+ "_table.csv".

End EventTriggerFiles.

(** ** Further grids of the examples *)

(** A grid of five columns whose header row has an empty string. *)
Definition empty_header_cell : list (list Cell) :=
  [ [CStr "Name"; CStr ""; CStr "Age"; CStr "City"; CStr "Zip"];
    [CStr "1"; CStr "2"; CStr "3"; CStr "4"; CStr "5"] ].

(** * Properties *)

(** ** Loops that leave at the first hit *)

Lemma scan_from_Some {A} (p : A → bool) (l : list A) (i j : nat) :
  scan_from p i l = Some j →
  ∃ k x, j = i + k ∧ l !! k = Some x ∧ p x = true ∧
         ∀ k' x', k' < k → l !! k' = Some x' → p x' = false.
Proof.
  revert i. induction l as [|y l IH]; intros i; simpl; [done|].
  destruct (p y) eqn:Hy.
  - intros [= <-]. exists 0, y. repeat split; [lia|done|lia].
  - intros (k & x & -> & Hk & Hx & Hlt)%IH.
    exists (S k), x. repeat split; [lia|done|done|].
    intros [|k'] x' ? Hk'; simpl in Hk'; [congruence|].
    apply (Hlt k'); [lia|done].
Qed.

Lemma scan_from_None {A} (p : A → bool) (l : list A) (i : nat) :
  scan_from p i l = None ↔ Forall (λ x, p x = false) l.
Proof.
  revert i. induction l as [|y l IH]; intros i; simpl.
  - split; [constructor|done].
  - destruct (p y) eqn:Hy.
    + split; [done|]. intros [? _]%Forall_cons. congruence.
    + rewrite IH. split; [by constructor|]. by intros [_ ?]%Forall_cons.
Qed.

Lemma scan_from_ext {A} (p q : A → bool) (l : list A) (i : nat) :
  (∀ x, p x = q x) → scan_from p i l = scan_from q i l.
Proof.
  intros Hpq. revert i. induction l as [|y l IH]; intros i; simpl; [done|].
  by rewrite Hpq, IH.
Qed.

Lemma count_if_app {A} (p : A → bool) (l1 l2 : list A) :
  count_if p (l1 ++ l2) = count_if p l1 + count_if p l2.
Proof. induction l1 as [|x l1 IH]; simpl; [done|]. rewrite IH. lia. Qed.

Lemma count_if_ext {A} (p q : A → bool) (l : list A) :
  (∀ x, p x = q x) → count_if p l = count_if q l.
Proof. intros Hpq. induction l as [|x l IH]; simpl; [done|]. by rewrite Hpq, IH. Qed.

Lemma count_if_replicate_false {A} (p : A → bool) (x : A) (n : nat) :
  p x = false → count_if p (replicate n x) = 0.
Proof. intros Hx. induction n as [|n IH]; simpl; [done|]. by rewrite Hx, IH. Qed.

(** ** Thresholds *)

(** [k >= 0.8 * n] and [k / n >= 0.8] agree for a positive [n]. *)
Lemma ge_times_ratio (k n : nat) :
  0 < n → ge_times k (8 # 10) n = Qle_bool (8 # 10) (ratio k n).
Proof.
  intros Hn. apply eq_true_iff_eq.
  unfold ge_times, ratio, as_float. rewrite !Qle_bool_iff.
  unfold Qle, Qmult, inject_Z. simpl Qnum. simpl Qden.
  rewrite <- (Nat2Pos.id n) at 1 by lia.
  rewrite positive_nat_Z. lia.
Qed.

(** ** Header detection *)

Lemma FunctionApp_non_empty_spec (cell : Cell) :
  FunctionApp.non_empty cell = negb (spec_empty cell).
Proof. unfold FunctionApp.non_empty, spec_empty. by rewrite negb_orb. Qed.

Lemma spec_fraction_count (row : list Cell) (num_cols : nat) :
  spec_fraction row num_cols = ratio (count_if FunctionApp.non_empty row) num_cols.
Proof.
  unfold spec_fraction. f_equal.
  rewrite count_if_app, count_if_replicate_false by done.
  rewrite Nat.add_0_r. apply count_if_ext. intros cell.
  by rewrite FunctionApp_non_empty_spec.
Qed.

(** In function_app.py the header loop finds the first row whose
    fraction of non-empty cells, over the column count of the grid,
    is at least [0.8]; an absent cell counts as empty. *)
Lemma FunctionApp_find_header_row_spec (rows : list (list Cell)) (num_cols : nat) :
  0 < num_cols →
  FunctionApp.find_header_row rows num_cols = spec_header_row rows num_cols.
Proof.
  intros Hn. unfold FunctionApp.find_header_row, spec_header_row.
  apply scan_from_ext. intros row.
  by rewrite spec_fraction_count, ge_times_ratio.
Qed.


(** C1: the header row is to be the first row whose fraction of
    non-empty cells is at least 0.8, an absent cell being empty.  On
    a sheet whose first row is blank, Updated.py takes the blank row
    for the header, because [str(None)] is the non-blank string
    ["None"]; function_app.py, which tests [cell is not None], finds
    row 1. *)
Theorem C1_updated_counts_absent_cells :
  spec_header_row blank_first_row 3 = Some 1 ∧
  FunctionApp.find_header_row blank_first_row 3 = Some 1 ∧
  Updated.find_header_row blank_first_row 3 = Some 0 ∧
  Updated.detect_table_in_worksheet blank_first_row =
    Ok (Some (mkTable ["Column_1"; "Column_2"; "Column_3"]
                [ [CStr "ID"; CStr "Name"; CStr "Qty"];
                  [CStr "1"; CStr "A"; CStr "5"] ])) ∧
  FunctionApp.detect_table_in_worksheet blank_first_row =
    Ok (Some (mkTable ["ID"; "Name"; "Qty"] [ [CStr "1"; CStr "A"; CStr "5"] ])).
Proof. repeat split; vm_compute; reflexivity. Qed.

(** ** The scenario of the specification *)


(** C6: on the grid of the scenario, Updated.py (threshold 0.8 for the
    header, 80% empty cells for the end) finds header row 1 and end
    row 3, keeps the full width of three columns, and returns the
    headers ID, Name, Qty with the two data rows 1,A,5 and 2,B,3; the
    row at index 5 is not part of the table. *)
Theorem C6_scenario :
  Updated.find_header_row scenario 3 = Some 1 ∧
  Updated.find_end_row scenario 3 1 = 3 ∧
  Updated.detect_table_from_rows scenario =
    Ok (Some (mkTable ["ID"; "Name"; "Qty"]
                [ [CStr "1"; CStr "A"; CStr "5"];
                  [CStr "2"; CStr "B"; CStr "3"] ])).
Proof. repeat split; vm_compute; reflexivity. Qed.

(** ** The end boundary *)

Lemma Updated_detect_Some (rows : list (list Cell)) (t : Table) :
  Updated.detect_table_from_rows rows = Ok (Some t) →
  ∃ header_row,
    Updated.find_header_row rows (length (hd [] rows)) = Some header_row ∧
    header_row < Updated.find_end_row rows (length (hd [] rows)) header_row.
Proof.
  unfold Updated.detect_table_from_rows. destruct rows as [|row0 rows]; [done|].
  cbn [hd]. set (num_cols := length row0). set (grid := row0 :: rows).
  destruct (num_cols =? 0); [done|].
  destruct (Updated.find_header_row grid num_cols) as [header_row|]; [|done].
  destruct (Updated.find_end_row grid num_cols header_row <=? header_row) eqn:Hle; [done|].
  intros _. exists header_row. split; [done|]. by apply Nat.leb_gt.
Qed.

Lemma FunctionApp_detect_Some (rows : list (list Cell)) (t : Table) :
  FunctionApp.detect_table_in_worksheet rows = Ok (Some t) →
  ∃ header_row,
    FunctionApp.find_header_row rows (length (hd [] rows)) = Some header_row ∧
    header_row < FunctionApp.find_end_row rows (length (hd [] rows)) header_row.
Proof.
  unfold FunctionApp.detect_table_in_worksheet. destruct rows as [|row0 rows]; [done|].
  cbn [hd]. set (num_cols := length row0). set (grid := row0 :: rows).
  destruct (num_cols =? 0); [done|].
  destruct (FunctionApp.find_header_row grid num_cols) as [header_row|]; [|done].
  destruct (FunctionApp.find_end_row grid num_cols header_row <=? header_row) eqn:Hle; [done|].
  intros _. exists header_row. split; [done|]. by apply Nat.leb_gt.
Qed.

(** The bounds of [find_table_boundaries] lie inside the grid, and the
    end row is not above the header row. *)
Lemma find_table_boundaries_rows (self : TableExtractor.ExcelTableExtractor)
    (data : list (list Cell)) (header_row table_end start_col end_col : nat) :
  TableExtractor.find_table_boundaries self data
    = Some (header_row, table_end, start_col, end_col) →
  header_row ≤ table_end ∧ table_end < length data.
Proof.
  unfold TableExtractor.find_table_boundaries.
  destruct data as [|row0 rest]; [done|]. set (data := row0 :: rest).
  destruct (TableExtractor.max_len data =? 0); [done|].
  destruct (TableExtractor.find_header_row self data _) as [h|] eqn:Hh; [|done].
  intros [= <- <- _ _].
  apply scan_from_Some in Hh as (k & x & -> & Hk & _).
  apply lookup_lt_Some in Hk.
  unfold TableExtractor.find_table_end.
  destruct (scan_from _ _ _) as [i|] eqn:Hi.
  - apply scan_from_Some in Hi as (k' & x' & -> & Hk' & _).
    apply lookup_lt_Some in Hk'. rewrite length_drop in Hk'. lia.
  - lia.
Qed.

(** C2, the claim as it stands fails: the bounds of a grid of one full
    row have the end row on the header row. *)
Lemma C2_counterexample :
  ¬ (∀ data header_row end_row start_col end_col,
       TableExtractor.find_table_boundaries TableExtractor.default data
         = Some (header_row, end_row, start_col, end_col) →
       header_row < end_row).
Proof.
  intros H. specialize (H header_only 0 0 0 2). vm_compute in H.
  specialize (H eq_refl). lia.
Qed.

Lemma Updated_detect_degenerate (rows : list (list Cell)) (header_row : nat) :
  Updated.find_header_row rows (length (hd [] rows)) = Some header_row →
  Updated.find_end_row rows (length (hd [] rows)) header_row ≤ header_row →
  Updated.detect_table_from_rows rows = Ok None.
Proof.
  unfold Updated.detect_table_from_rows. destruct rows as [|row0 rows]; [done|].
  cbn [hd]. set (num_cols := length row0). set (grid := row0 :: rows).
  destruct (num_cols =? 0); [done|].
  intros -> Hle%Nat.leb_le. by rewrite Hle.
Qed.

Lemma FunctionApp_detect_degenerate (rows : list (list Cell)) (header_row : nat) :
  FunctionApp.find_header_row rows (length (hd [] rows)) = Some header_row →
  FunctionApp.find_end_row rows (length (hd [] rows)) header_row ≤ header_row →
  FunctionApp.detect_table_in_worksheet rows = Ok None.
Proof.
  unfold FunctionApp.detect_table_in_worksheet. destruct rows as [|row0 rows]; [done|].
  cbn [hd]. set (num_cols := length row0). set (grid := row0 :: rows).
  destruct (num_cols =? 0); [done|].
  intros -> Hle%Nat.leb_le. by rewrite Hle.
Qed.

(** C2, amended: in Updated.py and function_app.py, when the end row
    that was computed is not strictly below the header row the result
    is the empty dictionary, without raising, and so a table is
    returned only when the end row lies strictly below the header
    row; the bounds of [find_table_boundaries] in table_extractor.py,
    which has no such check, satisfy
    [header_row <= end_row < len(data)]. *)
Theorem C2_end_boundary :
  (∀ rows header_row,
     Updated.find_header_row rows (length (hd [] rows)) = Some header_row →
     Updated.find_end_row rows (length (hd [] rows)) header_row ≤ header_row →
     Updated.detect_table_from_rows rows = Ok None) ∧
  (∀ rows header_row,
     FunctionApp.find_header_row rows (length (hd [] rows)) = Some header_row →
     FunctionApp.find_end_row rows (length (hd [] rows)) header_row ≤ header_row →
     FunctionApp.detect_table_in_worksheet rows = Ok None) ∧
  (∀ rows t, Updated.detect_table_from_rows rows = Ok (Some t) →
     ∃ header_row,
       Updated.find_header_row rows (length (hd [] rows)) = Some header_row ∧
       header_row < Updated.find_end_row rows (length (hd [] rows)) header_row) ∧
  (∀ rows t, FunctionApp.detect_table_in_worksheet rows = Ok (Some t) →
     ∃ header_row,
       FunctionApp.find_header_row rows (length (hd [] rows)) = Some header_row ∧
       header_row < FunctionApp.find_end_row rows (length (hd [] rows)) header_row) ∧
  (∀ self data header_row end_row start_col end_col,
     TableExtractor.find_table_boundaries self data
       = Some (header_row, end_row, start_col, end_col) →
     header_row ≤ end_row ∧ end_row < length data).
Proof.
  split; [exact Updated_detect_degenerate|].
  split; [exact FunctionApp_detect_degenerate|].
  split; [exact Updated_detect_Some|].
  split; [exact FunctionApp_detect_Some|].
  exact find_table_boundaries_rows.
Qed.

Lemma C2_end_boundary_witness :
  (Updated.detect_table_from_rows header_only = Ok None ∧
   FunctionApp.detect_table_in_worksheet header_only = Ok None) ∧
  (∃ header_row,
     Updated.find_header_row scenario 3 = Some header_row ∧
     header_row < Updated.find_end_row scenario 3 header_row) ∧
  (0 ≤ 0 ∧ 0 < length header_only).
Proof.
  destruct C2_end_boundary as (HUd & HFd & HU & _ & HT). split; [split|split].
  - apply (HUd header_only 0); vm_compute; [reflexivity|lia].
  - apply (HFd header_only 0); vm_compute; [reflexivity|lia].
  - apply (HU scenario (mkTable ["ID"; "Name"; "Qty"]
                [ [CStr "1"; CStr "A"; CStr "5"];
                  [CStr "2"; CStr "B"; CStr "3"] ])).
    vm_compute. reflexivity.
  - apply (HT TableExtractor.default header_only 0 0 0 2).
    vm_compute. reflexivity.
Defined.

(** ** Grids without rows or without columns *)

Lemma max_len_all_empty (data : list (list Cell)) :
  Forall (λ row, row = []) data → TableExtractor.max_len data = 0.
Proof.
  unfold TableExtractor.max_len.
  induction 1 as [|row data -> _ IH]; simpl; [done|]. by rewrite IH.
Qed.

(** C4, the claim as it stands fails: table_extractor.py takes the
    longest row, not the first, for the column count, and finds a
    table below a first row without columns. *)
Lemma C4_counterexample :
  ¬ (∀ data, data = [] ∨ length (hd [] data) = 0 →
       TableExtractor.find_table_boundaries TableExtractor.default data = None).
Proof.
  intros H. specialize (H empty_first_row (or_intror eq_refl)).
  vm_compute in H. discriminate H.
Qed.

(** C4, amended: a grid without rows gives no table in every
    variant; a first row without columns gives no table in Updated.py
    and function_app.py, where the column count is the length of the
    first row; in table_extractor.py the column count is the length of
    the longest row, and a grid gives no table when none of its rows
    has a column. *)
Theorem C4_no_rows_no_columns :
  (∀ rows, rows = [] ∨ length (hd [] rows) = 0 →
     Updated.detect_table_from_rows rows = Ok None ∧
     FunctionApp.detect_table_in_worksheet rows = Ok None) ∧
  (∀ self data, data = [] ∨ Forall (λ row, row = []) data →
     TableExtractor.find_table_boundaries self data = None).
Proof.
  split.
  - intros [|row0 rest] Hrows; [done|].
    destruct Hrows as [?|Hlen]; [done|]. simpl in Hlen.
    unfold Updated.detect_table_from_rows, FunctionApp.detect_table_in_worksheet.
    by rewrite Hlen.
  - intros self [|row0 rest] Hdata; [done|].
    destruct Hdata as [?|Hall]; [done|].
    unfold TableExtractor.find_table_boundaries.
    by rewrite (max_len_all_empty _ Hall).
Qed.

Lemma C4_no_rows_no_columns_witness :
  (Updated.detect_table_from_rows empty_first_row = Ok None ∧
   FunctionApp.detect_table_in_worksheet empty_first_row = Ok None) ∧
  TableExtractor.find_table_boundaries TableExtractor.default [ []; [] ] = None.
Proof.
  destruct C4_no_rows_no_columns as [HU HT]. split.
  - apply (HU empty_first_row). right. reflexivity.
  - apply (HT TableExtractor.default [ []; [] ]). right.
    repeat constructor.
Defined.

(** ** Results of comprehensions *)

Lemma mapM_Res_Ok {A B} (f : A → Res B) (l : list A) (k : list B) :
  mapM f l = Ok k ↔ Forall2 (λ x y, f x = Ok y) l k.
Proof.
  revert k. induction l as [|x l IH]; intros k; simpl.
  - split; [intros [= <-]; constructor|]. by inversion 1.
  - unfold mbind, Res_bind, mret, Res_ret in *.
    destruct (f x) as [y|e] eqn:Hx.
    + destruct (mapM f l) as [k'|e] eqn:Hl.
      * split.
        -- intros [= <-]. constructor; [done|]. by apply IH.
        -- inversion 1 as [|? y' ? k'' Hy Hk]; subst.
           apply IH in Hk. congruence.
      * split; [done|]. inversion 1 as [|? y' ? k'' Hy Hk]; subst.
        apply IH in Hk. congruence.
    + split; [done|]. inversion 1; congruence.
Qed.

Lemma cell_at_Ok (rows : list (list Cell)) (row_idx col_idx : nat) (cell : Cell) :
  cell_at rows row_idx col_idx = Ok cell ↔
  ∃ row, rows !! row_idx = Some row ∧ row !! col_idx = Some cell.
Proof.
  unfold cell_at, py_index, mbind, Res_bind.
  destruct (rows !! row_idx) as [row|]; simpl.
  - destruct (row !! col_idx) as [c|] eqn:Hc.
    + split; [intros [= <-]; by exists row|]. intros (? & [= <-] & ?). congruence.
    + split; [done|]. intros (? & [= <-] & ?). congruence.
  - split; [done|]. by intros (? & ? & ?).
Qed.

(** The labels of a header row, one for each column of the grid. *)
Lemma header_labels_Ok (label : Cell → nat → string)
    (rows : list (list Cell)) (header_row num_cols : nat) (l : list string) :
  mapM (λ col_idx,
      header ← cell_at rows header_row col_idx;
      mret (label header col_idx)) (seq 0 num_cols) = Ok l →
  length l = num_cols ∧
  ∀ k, k < num_cols →
    ∃ cell, cell_at rows header_row k = Ok cell ∧ l !! k = Some (label cell k).
Proof.
  intros Hl%mapM_Res_Ok. split.
  - apply Forall2_length in Hl. by rewrite length_seq in Hl.
  - intros k Hk.
    assert (seq 0 num_cols !! k = Some k) as Hseq by by apply lookup_seq.
    destruct (Forall2_lookup_l _ _ _ _ _ Hl Hseq) as (y & Hy & Hf).
    unfold mbind, Res_bind, mret, Res_ret in Hf.
    destruct (cell_at rows header_row k) as [cell|]; [|done].
    exists cell. split; [done|]. congruence.
Qed.

(** ** Data frames *)

Lemma frame_update_Ok (df : loc) f (h : heap) (columns : list string)
    (values : list (list Cell)) :
  h !! df = Some (OFrame columns values) →
  frame_update df f h
    = Ok ((), <[df := OFrame (f (columns, values)).1 (f (columns, values)).2]> h).
Proof. unfold frame_update. intros ->. by destruct (f _). Qed.

Lemma set_column_prefix (name : string) (value : Cell)
    (columns : list string) (values : list (list Cell)) :
  take (length columns) (set_column name value (columns, values)).1 = columns.
Proof.
  unfold set_column. case_bool_decide; simpl.
  - by rewrite firstn_all.
  - by rewrite take_app_length.
Qed.

Lemma set_column_elem (name : string) (value : Cell)
    (columns : list string) (values : list (list Cell)) :
  name ∈ (set_column name value (columns, values)).1.
Proof.
  unfold set_column. case_bool_decide; simpl; [done|].
  apply elem_of_app. right. by apply list_elem_of_singleton.
Qed.

Lemma set_column_mono (name x : string) (value : Cell)
    (columns : list string) (values : list (list Cell)) :
  x ∈ columns → x ∈ (set_column name value (columns, values)).1.
Proof.
  intros Hx. unfold set_column. case_bool_decide; simpl; [done|].
  apply elem_of_app. by left.
Qed.

(** [transform_dataframe] updates the frame it is given and returns
    the reference it was given. *)
Lemma transform_dataframe_run (h : heap) (df : loc) (columns : list string)
    (values : list (list Cell)) (sheet_name filename : string) :
  h !! df = Some (OFrame columns values) →
  Updated.transform_dataframe df sheet_name filename h
    = Ok (df, <[df := OFrame (transformed columns values sheet_name filename).1
                        (transformed columns values sheet_name filename).2]> h).
Proof.
  intros Hdf. unfold Updated.transform_dataframe, mbind, Py_bind, mret, Py_ret.
  rewrite (frame_update_Ok _ _ _ _ _ Hdf). cbn [fst snd].
  erewrite frame_update_Ok by apply lookup_insert_eq.
  erewrite frame_update_Ok by apply lookup_insert_eq.
  rewrite !insert_insert_eq. unfold transformed.
  by destruct (set_column "source_file" _ _).
Qed.

(** The headers of the frame are trimmed. *)
Lemma transformed_prefix (columns : list string) (values : list (list Cell))
    (sheet_name filename : string) :
  take (length columns) (transformed columns values sheet_name filename).1
    = map strip columns.
Proof.
  unfold transformed.
  set (f1 := set_column "source_file" _ _).
  destruct f1 as [c1 v1] eqn:Hf1.
  pose proof (set_column_prefix "source_sheet" (CStr sheet_name) c1 v1) as H2.
  pose proof (set_column_prefix "source_file" (CStr filename) (map strip columns) values) as H1.
  fold f1 in H1. rewrite Hf1 in H1. cbn [fst] in H1.
  rewrite length_map in H1.
  assert (length columns ≤ length c1) as Hlen.
  { rewrite <- (length_map strip columns), <- H1 at 1. rewrite length_take. lia. }
  rewrite <- H1. rewrite <- H2 at 2.
  rewrite take_take. f_equal. lia.
Qed.

(** The frame has the two columns of the source. *)
Lemma transformed_source (columns : list string) (values : list (list Cell))
    (sheet_name filename : string) :
  "source_file" ∈ (transformed columns values sheet_name filename).1 ∧
  "source_sheet" ∈ (transformed columns values sheet_name filename).1.
Proof.
  unfold transformed.
  pose proof (set_column_elem "source_file" (CStr filename) (map strip columns) values).
  destruct (set_column "source_file" _ _) as [c1 v1]. split.
  - by apply set_column_mono.
  - apply set_column_elem.
Qed.

Lemma transform_dataframe_spec (h : heap) (df : loc) (columns : list string)
    (values : list (list Cell)) (sheet_name filename : string) :
  h !! df = Some (OFrame columns values) →
  ∃ columns' values',
    Updated.transform_dataframe df sheet_name filename h
      = Ok (df, <[df := OFrame columns' values']> h) ∧
    take (length columns) columns' = map strip columns.
Proof.
  intros Hdf. eexists _, _. split; [by apply transform_dataframe_run|].
  apply transformed_prefix.
Qed.

(** ** Header labels *)

Lemma Updated_detect_headers (rows : list (list Cell)) (t : Table) :
  Updated.detect_table_from_rows rows = Ok (Some t) →
  ∃ header_row,
    Updated.find_header_row rows (length (hd [] rows)) = Some header_row ∧
    length (headers t) = length (hd [] rows) ∧
    ∀ k, k < length (hd [] rows) →
      ∃ cell, cell_at rows header_row k = Ok cell ∧
        headers t !! k = Some (if truthy cell then str cell else column_label k).
Proof.
  unfold Updated.detect_table_from_rows. destruct rows as [|row0 rows]; [done|].
  cbn [hd]. set (num_cols := length row0). set (grid := row0 :: rows).
  destruct (num_cols =? 0); [done|].
  destruct (Updated.find_header_row grid num_cols) as [header_row|]; [|done].
  destruct (_ <=? header_row); [done|].
  unfold mbind, Res_bind, mret, Res_ret.
  destruct (Updated.make_headers grid header_row num_cols) as [hs|] eqn:Hhs; [|done].
  destruct (Updated.make_data grid header_row _ num_cols) as [ds|]; [|done].
  intros [= <-]. simpl. exists header_row. split; [done|].
  by apply (header_labels_Ok Updated.header_label) in Hhs.
Qed.

Lemma FunctionApp_detect_headers (rows : list (list Cell)) (t : Table) :
  FunctionApp.detect_table_in_worksheet rows = Ok (Some t) →
  ∃ header_row,
    FunctionApp.find_header_row rows (length (hd [] rows)) = Some header_row ∧
    length (headers t) = length (hd [] rows) ∧
    ∀ k, k < length (hd [] rows) →
      ∃ cell, cell_at rows header_row k = Ok cell ∧
        headers t !! k = Some (if is_None cell then column_label k else str cell).
Proof.
  unfold FunctionApp.detect_table_in_worksheet. destruct rows as [|row0 rows]; [done|].
  cbn [hd]. set (num_cols := length row0). set (grid := row0 :: rows).
  destruct (num_cols =? 0); [done|].
  destruct (FunctionApp.find_header_row grid num_cols) as [header_row|]; [|done].
  destruct (_ <=? header_row); [done|].
  unfold mbind, Res_bind, mret, Res_ret.
  destruct (FunctionApp.make_headers grid header_row num_cols) as [hs|] eqn:Hhs; [|done].
  destruct (FunctionApp.make_data grid header_row _ num_cols) as [ds|]; [|done].
  intros [= <-]. simpl. exists header_row. split; [done|].
  apply (header_labels_Ok FunctionApp.header_label) in Hhs as [Hlen Hk].
  split; [done|]. intros k Hlt. destruct (Hk k Hlt) as (cell & Hc & Hl).
  exists cell. split; [done|]. rewrite Hl. unfold FunctionApp.header_label.
  by destruct (is_None cell).
Qed.

(** C5, the claim as it stands fails: in Updated.py a header cell of
    blanks is neither replaced by [Column_<k>] in the table nor after
    the trimming of the headers; not even the trimmed headers are the
    ones the claim describes. *)
Lemma C5_counterexample :
  ¬ (∀ rows t header_row hrow,
       Updated.detect_table_from_rows rows = Ok (Some t) →
       Updated.find_header_row rows (length (hd [] rows)) = Some header_row →
       rows !! header_row = Some hrow →
       map strip (headers t) = imap spec_header (take (length (hd [] rows)) hrow)).
Proof.
  intros H.
  specialize (H blank_header_cell
                (mkTable [" "; "b"; "c"; "d"; "e"]
                   [ [CStr "1"; CStr "2"; CStr "3"; CStr "4"; CStr "5"] ])
                0 [CStr " "; CStr "b"; CStr "c"; CStr "d"; CStr "e"]).
  vm_compute in H. specialize (H eq_refl eq_refl eq_refl). discriminate H.
Qed.

(** The headers of Updated.py for the cells whose treatment is by
    design: absent cells and empty strings are replaced, cells that
    count as true are stringified. *)
Lemma Updated_detect_header_cells (rows : list (list Cell)) (t : Table) :
  Updated.detect_table_from_rows rows = Ok (Some t) →
  ∃ header_row,
    Updated.find_header_row rows (length (hd [] rows)) = Some header_row ∧
    length (headers t) = length (hd [] rows) ∧
    ∀ k, k < length (hd [] rows) →
      ∃ cell, cell_at rows header_row k = Ok cell ∧
        (cell = CNone ∨ cell = CStr "" → headers t !! k = Some (column_label k)) ∧
        (truthy cell = true → headers t !! k = Some (str cell)).
Proof.
  intros (header_row & Hh & Hlen & Hcells)%Updated_detect_headers.
  exists header_row. split; [done|]. split; [done|].
  intros k Hk. destruct (Hcells k Hk) as (cell & Hcell & Hlabel).
  exists cell. split; [done|]. split.
  - by intros [-> | ->].
  - intros Htrue. by rewrite Htrue in Hlabel.
Qed.

(** A row of three cells with an empty string in the middle has two
    cells out of three with a value: it is not the header row of a
    grid of three columns. *)
Lemma two_of_three_not_header (rows : list (list Cell)) (header_row : nat) :
  rows !! header_row = Some [CStr "Name"; CStr ""; CStr "Age"] →
  Updated.find_header_row rows 3 ≠ Some header_row ∧
  FunctionApp.find_header_row rows 3 ≠ Some header_row.
Proof.
  intros Hrow. split.
  - intros (k & x & -> & Hk & Hp & _)%scan_from_Some.
    change (0 + k) with k in Hrow. rewrite Hk in Hrow. injection Hrow as ->.
    vm_compute in Hp. discriminate Hp.
  - intros (k & x & -> & Hk & Hp & _)%scan_from_Some.
    change (0 + k) with k in Hrow. rewrite Hk in Hrow. injection Hrow as ->.
    vm_compute in Hp. discriminate Hp.
Qed.

(** C5, amended: the table has one header for each column of the
    first row of the grid.  In Updated.py a header cell that is
    absent or the empty string is replaced by [Column_<k>], [k] the
    1-based index of the column, and a header cell that counts as
    true, such as a string that is not empty, is stringified as it
    is, a string of blanks too; in function_app.py only an absent
    cell is replaced.  The headers are not trimmed in the table;
    [transform_dataframe] trims them afterwards.  The row Name,
    empty string, Age is never the header row of a grid of three
    columns; in Updated.py the grid whose header row is Name, empty
    string, Age, City, Zip gives the headers Name, Column_2, Age,
    City, Zip. *)
Theorem C5_header_labels :
  (∀ rows t, Updated.detect_table_from_rows rows = Ok (Some t) →
     ∃ header_row,
       Updated.find_header_row rows (length (hd [] rows)) = Some header_row ∧
       length (headers t) = length (hd [] rows) ∧
       ∀ k, k < length (hd [] rows) →
         ∃ cell, cell_at rows header_row k = Ok cell ∧
           (cell = CNone ∨ cell = CStr "" → headers t !! k = Some (column_label k)) ∧
           (truthy cell = true → headers t !! k = Some (str cell))) ∧
  (∀ rows t, FunctionApp.detect_table_in_worksheet rows = Ok (Some t) →
     ∃ header_row,
       FunctionApp.find_header_row rows (length (hd [] rows)) = Some header_row ∧
       length (headers t) = length (hd [] rows) ∧
       ∀ k, k < length (hd [] rows) →
         ∃ cell, cell_at rows header_row k = Ok cell ∧
           headers t !! k = Some (if is_None cell then column_label k else str cell)) ∧
  (∀ (h : heap) df columns values sheet_name filename,
     h !! df = Some (OFrame columns values) →
     ∃ columns' values',
       Updated.transform_dataframe df sheet_name filename h
         = Ok (df, <[df := OFrame columns' values']> h) ∧
       take (length columns) columns' = map strip columns) ∧
  (∀ rows header_row,
     rows !! header_row = Some [CStr "Name"; CStr ""; CStr "Age"] →
     Updated.find_header_row rows 3 ≠ Some header_row ∧
     FunctionApp.find_header_row rows 3 ≠ Some header_row) ∧
  Updated.detect_table_from_rows empty_header_cell
    = Ok (Some (mkTable ["Name"; "Column_2"; "Age"; "City"; "Zip"]
                  [ [CStr "1"; CStr "2"; CStr "3"; CStr "4"; CStr "5"] ])).
Proof.
  split; [exact Updated_detect_header_cells|].
  split; [exact FunctionApp_detect_headers|].
  split; [exact transform_dataframe_spec|].
  split; [exact two_of_three_not_header|].
  vm_compute. reflexivity.
Qed.

Lemma C5_header_labels_witness :
  ∃ header_row,
    Updated.find_header_row blank_header_cell 5 = Some header_row ∧
    length [" "; "b"; "c"; "d"; "e"] = 5 ∧
    ∀ k, k < 5 →
      ∃ cell, cell_at blank_header_cell header_row k = Ok cell ∧
        (cell = CNone ∨ cell = CStr "" →
         [" "; "b"; "c"; "d"; "e"] !! k = Some (column_label k)) ∧
        (truthy cell = true → [" "; "b"; "c"; "d"; "e"] !! k = Some (str cell)).
Proof.
  destruct C5_header_labels as (HU & _).
  apply (HU blank_header_cell
           (mkTable [" "; "b"; "c"; "d"; "e"]
              [ [CStr "1"; CStr "2"; CStr "3"; CStr "4"; CStr "5"] ])).
  vm_compute. reflexivity.
Defined.

(** ** Splitting a name at a separator *)

Lemma split_not_nil (sep : ascii) (s : string) : TableExtractor.split sep s ≠ [].
Proof.
  induction s as [|c s IH]; simpl; [done|].
  destruct (Ascii.eqb c sep); [done|].
  by destruct (TableExtractor.split sep s).
Qed.

Lemma split_join (sep : ascii) (s : string) :
  join sep (TableExtractor.split sep s) = s.
Proof.
  induction s as [|c s IH]; simpl; [done|].
  destruct (Ascii.eqb_spec c sep) as [->|Hc].
  - pose proof (split_not_nil sep s).
    destruct (TableExtractor.split sep s) as [|p ps]; [done|].
    simpl in *. by rewrite IH.
  - pose proof (split_not_nil sep s).
    destruct (TableExtractor.split sep s) as [|p ps]; [done|].
    destruct ps as [|q ps]; simpl in *; by rewrite <- IH.
Qed.

Lemma split_parts (sep : ascii) (s : string) :
  Forall (λ part, contains sep part = false) (TableExtractor.split sep s).
Proof.
  induction s as [|c s IH]; simpl; [by repeat constructor|].
  destruct (Ascii.eqb c sep) eqn:Hc; [by constructor|].
  pose proof (split_not_nil sep s).
  destruct (TableExtractor.split sep s) as [|p ps]; [done|].
  apply Forall_cons in IH as [Hp Hps]. constructor; [|done].
  simpl. by rewrite Hc, Hp.
Qed.

Lemma split_no_sep (sep : ascii) (s : string) :
  contains sep s = false → TableExtractor.split sep s = [s].
Proof.
  induction s as [|c s IH]; simpl; [done|].
  intros [Hc Hs]%orb_false_elim. rewrite Hc. by rewrite IH.
Qed.

Lemma split_app (sep : ascii) (part s : string) :
  contains sep part = false →
  TableExtractor.split sep (part +:+ String sep s) = part :: TableExtractor.split sep s.
Proof.
  induction part as [|c part IH]; simpl.
  - intros _. by rewrite Ascii.eqb_refl.
  - intros [Hc Hs]%orb_false_elim. rewrite Hc. by rewrite IH.
Qed.

(** The parts of a name are determined by the name. *)
Lemma split_of_join (sep : ascii) (parts : list string) :
  parts ≠ [] → Forall (λ part, contains sep part = false) parts →
  TableExtractor.split sep (join sep parts) = parts.
Proof.
  induction parts as [|p ps IH]; [done|]. intros _ [Hp Hps]%Forall_cons.
  destruct ps as [|q ps].
  - simpl. by apply split_no_sep.
  - change (join sep (p :: q :: ps)) with (p +:+ String sep (join sep (q :: ps))).
    rewrite split_app by done. f_equal. by apply IH.
Qed.

(** C7: [extract_group_id] splits the name at the underscores: the
    parts joined by underscores are the name, no part has an
    underscore, and no other list of parts has these two properties.
    The result is the second part when there are at least two parts
    and the empty string otherwise.  The name report_TEAM7_2024.xlsx
    gives TEAM7, and report.xlsx gives the empty string. *)
Theorem C7_extract_group_id (blob_name : string) :
  let parts := TableExtractor.split "_" blob_name in
  (join "_" parts = blob_name ∧
   Forall (λ part, contains "_" part = false) parts ∧
   ∀ parts', parts' ≠ [] → Forall (λ part, contains "_" part = false) parts' →
     join "_" parts' = blob_name → parts' = parts) ∧
  TableExtractor.extract_group_id blob_name
    = match parts with
      | _ :: second :: _ => second
      | _ => ""
      end ∧
  TableExtractor.extract_group_id "report_TEAM7_2024.xlsx" = "TEAM7" ∧
  TableExtractor.extract_group_id "report.xlsx" = "".
Proof.
  intros parts. split; [|split; [|by vm_compute]].
  - split; [apply split_join|]. split; [apply split_parts|].
    intros parts' Hne Hall <-. subst parts. by rewrite split_of_join.
  - unfold TableExtractor.extract_group_id. fold parts.
    by destruct parts as [|? [|? ?]].
Qed.

Lemma C7_extract_group_id_witness :
  ["report"; "TEAM7"; "2024.xlsx"] = TableExtractor.split "_" "report_TEAM7_2024.xlsx".
Proof.
  destruct (C7_extract_group_id "report_TEAM7_2024.xlsx") as ((_ & _ & Huniq) & _).
  apply Huniq.
  - discriminate.
  - repeat constructor.
  - reflexivity.
Defined.

(** ** The extension in the group identifier *)

Lemma stake_sdrop (i : nat) (s : string) :
  EventTrigger.stake i s +:+ EventTrigger.sdrop i s = s.
Proof.
  revert s. induction i as [|i IH]; intros [|c s]; simpl; try done.
  change (String c (EventTrigger.stake i s +:+ EventTrigger.sdrop i s) = String c s).
  by rewrite IH.
Qed.

Lemma sdrop_sdrop (i j : nat) (s : string) :
  EventTrigger.sdrop i (EventTrigger.sdrop j s) = EventTrigger.sdrop (j + i) s.
Proof.
  revert s. induction j as [|j IH]; intros s; simpl; [done|].
  destruct s as [|c s]; [by destruct i|]. apply IH.
Qed.

Lemma rfind_from_ge (c : ascii) (i : Z) (s : string) :
  (-1 ≤ i)%Z → (-1 ≤ EventTrigger.rfind_from c i s)%Z.
Proof.
  revert i. induction s as [|x s IH]; intros i Hi; simpl; [lia|].
  specialize (IH (i + 1)%Z ltac:(lia)).
  destruct (_ =? -1)%Z; [|done]. destruct (Ascii.eqb x c); lia.
Qed.

Lemma contains_lower (s : string) :
  contains "_" s = true → contains "_" (EventTrigger.lower s) = true.
Proof.
  induction s as [|c s IH]; simpl; [done|].
  intros [Hc|Hs]%orb_true_iff.
  - apply Ascii.eqb_eq in Hc as ->. done.
  - rewrite (IH Hs). apply orb_true_r.
Qed.

(** An extension that passes the check of the handler has no
    underscore. *)
Lemma excel_extension_no_underscore (ext : string) :
  EventTrigger.lower ext ∈ [".xls"; ".xlsx"] → contains "_" ext = false.
Proof.
  intros Hin. destruct (contains "_" ext) eqn:Hc; [|done].
  apply contains_lower in Hc.
  apply elem_of_cons in Hin as [Heq|Hin].
  { rewrite Heq in Hc. discriminate Hc. }
  apply list_elem_of_singleton in Hin. rewrite Hin in Hc. discriminate Hc.
Qed.

Lemma app_empty (s : string) : "" +:+ s = s.
Proof. reflexivity. Qed.

Lemma app_String (c : ascii) (s1 s2 : string) :
  String c s1 +:+ s2 = String c (s1 +:+ s2).
Proof. reflexivity. Qed.

Lemma contains_app_sep (sep : ascii) (a c : string) :
  contains sep (a +:+ String sep c) = true.
Proof.
  induction a as [|z a IH]; rewrite ?app_empty, ?app_String; simpl.
  - by rewrite Ascii.eqb_refl.
  - rewrite IH. apply orb_true_r.
Qed.

(** A suffix without separator lies in the part after the last
    separator. *)
Lemma suffix_after_sep (sep : ascii) (a c root ext : string) :
  root +:+ ext = a +:+ String sep c → contains sep ext = false →
  ∃ stem, c = stem +:+ ext.
Proof.
  revert root. induction a as [|y a IH]; intros root Heq Hext.
  - destruct root as [|x root]; rewrite ?app_empty, ?app_String in Heq.
    + subst ext. simpl in Hext. by rewrite Ascii.eqb_refl in Hext.
    + injection Heq as _ Heq. by exists root.
  - destruct root as [|x root]; rewrite ?app_empty, ?app_String in Heq.
    + subst ext. rewrite <- app_String, contains_app_sep in Hext. done.
    + injection Heq as _ Heq. by apply (IH root).
Qed.

(** The extension that [os.path.splitext] finds is the end of the
    base name. *)
Lemma splitext_ext_basename (p : string) :
  ∃ root, EventTrigger.basename p = root +:+ EventTrigger.splitext_ext p.
Proof.
  unfold EventTrigger.splitext_ext, EventTrigger.basename.
  pose proof (rfind_from_ge "/" 0 p ltac:(lia)) as Hsep.
  fold (EventTrigger.rfind "/" p) in Hsep.
  set (sepIndex := EventTrigger.rfind "/" p) in *.
  set (dotIndex := EventTrigger.rfind "." p).
  set (base := EventTrigger.sdrop (Z.to_nat (sepIndex + 1)) p).
  assert (∃ root, base = root +:+ "") as Hnil.
  { exists base. clear. induction base as [|c s IH]; [done|].
    rewrite app_String. by rewrite <- IH. }
  destruct (sepIndex <? dotIndex)%Z eqn:Hlt; [|done].
  destruct (EventTrigger.some_other _ _); [|done].
  apply Z.ltb_lt in Hlt.
  exists (EventTrigger.stake (Z.to_nat dotIndex - Z.to_nat (sepIndex + 1)) base).
  replace (EventTrigger.sdrop (Z.to_nat dotIndex) p)
    with (EventTrigger.sdrop (Z.to_nat dotIndex - Z.to_nat (sepIndex + 1)) base).
  - by rewrite stake_sdrop.
  - unfold base. rewrite sdrop_sdrop. f_equal. lia.
Qed.

(** C10, the claim as it stands fails: the name a.b_c splits at the
    underscore into two parts, its extension is .b_c, and the group
    identifier is c, which does not contain the extension. *)
Lemma C10_counterexample :
  ¬ (∀ name, length (TableExtractor.split "_" name) = 2 →
       ∃ pre post,
         TableExtractor.extract_group_id name
           = pre +:+ EventTrigger.splitext_ext name +:+ post).
Proof.
  intros H. destruct (H "a.b_c" eq_refl) as (pre & post & Heq).
  vm_compute in Heq.
  destruct pre as [|x [|y pre]]; discriminate Heq.
Qed.

(** C10, amended: the handler hands the base name of the blob, with
    its extension, to [extract_group_id].  For a blob that passes the
    check of the extension, so that its extension is .xls or .xlsx up
    to the case of its letters, and whose base name splits at the
    underscores into exactly two parts, the group identifier is the
    second part of the base name, and it ends with the extension of
    the file. *)
Theorem C10_group_id_keeps_extension (blob_name group_id a b : string) :
  EventTrigger.event_group_id blob_name = Some group_id →
  TableExtractor.split "_" (EventTrigger.basename blob_name) = [a; b] →
  group_id = b ∧
  group_id = TableExtractor.extract_group_id (EventTrigger.basename blob_name) ∧
  EventTrigger.basename blob_name = a +:+ "_" +:+ b ∧
  (∃ root, EventTrigger.basename blob_name = root +:+ EventTrigger.splitext_ext blob_name) ∧
  EventTrigger.lower (EventTrigger.splitext_ext blob_name) ∈ [".xls"; ".xlsx"] ∧
  ∃ stem, group_id = stem +:+ EventTrigger.splitext_ext blob_name.
Proof.
  unfold EventTrigger.event_group_id. case_bool_decide as Hext; [|done].
  simpl. intros [= <-] Hsplit.
  pose proof (split_join "_" (EventTrigger.basename blob_name)) as Hjoin.
  rewrite Hsplit in Hjoin.
  change (join "_" [a; b]) with (a +:+ "_" +:+ b) in Hjoin.
  assert (TableExtractor.extract_group_id (EventTrigger.basename blob_name) = b) as Hid.
  { unfold TableExtractor.extract_group_id. by rewrite Hsplit. }
  rewrite Hid. split; [done|]. split; [done|]. split; [done|].
  split; [apply splitext_ext_basename|]. split; [done|].
  apply excel_extension_no_underscore in Hext.
  destruct (splitext_ext_basename blob_name) as [root Hroot].
  apply (suffix_after_sep "_" a b root); [|done].
  rewrite <- Hroot, <- Hjoin. reflexivity.
Qed.

Lemma C10_group_id_keeps_extension_witness :
  "TEAM7.xlsx" = "TEAM7.xlsx" ∧
  "TEAM7.xlsx"
    = TableExtractor.extract_group_id (EventTrigger.basename "inbox/report_TEAM7.xlsx") ∧
  EventTrigger.basename "inbox/report_TEAM7.xlsx" = "report" +:+ "_" +:+ "TEAM7.xlsx" ∧
  (∃ root, EventTrigger.basename "inbox/report_TEAM7.xlsx"
             = root +:+ EventTrigger.splitext_ext "inbox/report_TEAM7.xlsx") ∧
  EventTrigger.lower (EventTrigger.splitext_ext "inbox/report_TEAM7.xlsx")
    ∈ [".xls"; ".xlsx"] ∧
  ∃ stem, "TEAM7.xlsx" = stem +:+ EventTrigger.splitext_ext "inbox/report_TEAM7.xlsx".
Proof.
  apply (C10_group_id_keeps_extension "inbox/report_TEAM7.xlsx" "TEAM7.xlsx"
           "report" "TEAM7.xlsx").
  - vm_compute. reflexivity.
  - vm_compute. reflexivity.
Defined.

(** ** Rows in the store *)

Lemma read_rows_Some (h : heap) (ls : list loc) (vals : list (list Cell)) :
  read_rows h ls = Some vals ↔ rows_at h ls vals.
Proof.
  unfold read_rows, rows_at. rewrite mapM_Some.
  split; intros H; (eapply Forall2_impl; [exact H|]); intros l v; simpl;
    destruct (h !! l) as [[]|]; naive_solver.
Qed.

Lemma read_table_Some (h : heap) (t : loc) (vals : list (list Cell)) :
  read_table h t = Some vals ↔
  ∃ items, h !! t = Some (OList items) ∧ rows_at h items vals.
Proof.
  unfold read_table. destruct (h !! t) as [[]|] eqn:Ht.
  - split; [done|]. by intros (? & [=] & _).
  - rewrite read_rows_Some. split; [by eauto|]. by intros (? & [= <-] & ?).
  - split; [done|]. by intros (? & [=] & _).
  - split; [done|]. by intros (? & [=] & _).
Qed.

(** Objects that stay as they are keep the rows they hold. *)
Lemma rows_at_weaken (h h' : heap) (ls : list loc) (vals : list (list Cell)) :
  h ⊆ h' → rows_at h ls vals → rows_at h' ls vals.
Proof.
  intros Hsub Hrows. eapply Forall2_impl; [exact Hrows|].
  intros l v Hl. exact (lookup_weaken _ _ _ _ Hl Hsub).
Qed.

Lemma read_table_weaken (h h' : heap) (t : loc) (vals : list (list Cell)) :
  h ⊆ h' → read_table h t = Some vals → read_table h' t = Some vals.
Proof.
  intros Hsub (items & Ht & Hrows)%read_table_Some.
  apply read_table_Some. exists items.
  split; [exact (lookup_weaken _ _ _ _ Ht Hsub) | by eapply rows_at_weaken].
Qed.

Lemma rows_at_insert_other (h : heap) (ls : list loc) (vals : list (list Cell))
    (l : loc) (o : obj) :
  l ∉ ls → rows_at h ls vals → rows_at (<[l := o]> h) ls vals.
Proof.
  intros Hl Hrows. unfold rows_at in *.
  induction Hrows as [|l' v ls vals Hl' _ IH]; [constructor|].
  apply not_elem_of_cons in Hl as [Hne Hl].
  constructor; [by rewrite lookup_insert_ne | by apply IH].
Qed.

(** [row.append(c)] on the row object at index [i] of a list of
    distinct row objects changes the row at index [i] and no other. *)
Lemma rows_at_append (h : heap) (ls : list loc) (vals : list (list Cell))
    (i : nat) (r : loc) (v v' : list Cell) :
  NoDup ls → rows_at h ls vals → ls !! i = Some r → vals !! i = Some v →
  rows_at (<[r := ORow v']> h) ls (<[i := v']> vals).
Proof.
  intros Hnd Hrows Hr Hv. unfold rows_at in *.
  apply Forall2_same_length_lookup. split.
  { rewrite length_insert. by eapply Forall2_length. }
  intros j l w Hl Hw. destruct (decide (j = i)) as [->|Hne].
  - assert (l = r) as -> by congruence.
    rewrite list_lookup_insert_eq in Hw by by eapply lookup_lt_Some.
    rewrite lookup_insert_eq. congruence.
  - rewrite list_lookup_insert_ne in Hw by done.
    assert (l ≠ r) as Hlr.
    { intros ->. apply Hne. by eapply NoDup_lookup. }
    rewrite lookup_insert_ne by done.
    exact (Forall2_lookup_lr _ _ _ _ _ _ Hrows Hl Hw).
Qed.

Lemma omap_lookup_seq {A} (l : list A) (s n : nat) :
  omap (λ i, l !! i) (seq s n) = take n (drop s l).
Proof.
  revert s. induction n as [|n IH]; intros s; simpl; [done|].
  rewrite IH. destruct (l !! s) as [x|] eqn:Hs.
  - by rewrite (drop_S _ _ _ Hs).
  - apply lookup_ge_None in Hs.
    rewrite !drop_ge by lia. by rewrite !take_nil.
Qed.

(** ** Copying the table out of the grid *)

Lemma rows_at_elem (h : heap) (ls : list loc) (vals : list (list Cell)) (l : loc) :
  rows_at h ls vals → l ∈ ls → ∃ v, h !! l = Some (ORow v).
Proof.
  intros Hrows (i & Hi)%list_elem_of_lookup.
  destruct (Forall2_lookup_l _ _ _ _ _ Hrows Hi) as (v & _ & Hv). by exists v.
Qed.

Section extract.

Context (h0 : heap) (g t : loc) (items : list loc) (data : list (list Cell)).
Context (start_col end_col : nat).
Hypothesis Hg : h0 !! g = Some (OList items).
Hypothesis Hdata : rows_at h0 items data.
Hypothesis Ht0 : h0 !! t = None.

(** The loop of [extract_table_data]: every row that it copies is a
    new object, and no object of the store before the call changes. *)
Lemma copy_rows_spec (idxs : list nat) :
  ∀ (h : heap) ts acc,
    h0 ⊆ h → h !! t = Some (OList ts) → rows_at h ts acc → NoDup ts →
    Forall (λ l, h0 !! l = None) ts →
    ∃ (h' : heap) ts',
      for_ idxs (TableExtractor.copy_row g t start_col end_col) h = Ok ((), h') ∧
      h0 ⊆ h' ∧ h' !! t = Some (OList ts') ∧
      rows_at h' ts'
        (acc ++ map (λ row, TableExtractor.table_row row start_col end_col)
                  (omap (λ i, data !! i) idxs)) ∧
      NoDup ts' ∧ Forall (λ l, h0 !! l = None) ts'.
Proof.
  induction idxs as [|i idxs IH]; intros h ts acc Hsub Ht Hrows Hnd Hfresh.
  { exists h, ts. simpl. by rewrite app_nil_r. }
  cbn [for_ omap list_omap]. unfold mbind at 1, Py_bind at 1.
  unfold TableExtractor.copy_row at 1, mbind, Py_bind, get_list.
  rewrite (lookup_weaken _ _ _ _ Hg Hsub).
  pose proof (Forall2_length _ _ _ Hdata) as Hlen.
  destruct (i <? length items) eqn:Hi.
  - apply Nat.ltb_lt in Hi.
    destruct (lookup_lt_is_Some_2 items i Hi) as [r Hr].
    destruct (Forall2_lookup_l _ _ _ _ _ Hdata Hr) as (row & Hrow & Hhr).
    unfold lift, py_index. rewrite Hr. unfold get_row.
    rewrite (lookup_weaken _ _ _ _ Hhr Hsub). unfold alloc.
    set (l := fresh (dom h)).
    assert (h !! l = None) as Hl by (apply not_elem_of_dom, is_fresh).
    assert (l ≠ t) as Hlt by congruence.
    assert (l ∉ ts) as Hlts.
    { intros Hin. destruct (rows_at_elem _ _ _ _ Hrows Hin). congruence. }
    assert (t ∉ ts) as Htts.
    { intros Hin. destruct (rows_at_elem _ _ _ _ Hrows Hin). congruence. }
    unfold list_append. rewrite lookup_insert_ne by done. rewrite Ht.
    set (new_row := TableExtractor.table_row row start_col end_col).
    destruct (IH (<[t := OList (ts ++ [l])]> (<[l := ORow new_row]> h))
                (ts ++ [l]) (acc ++ [new_row]))
      as (h' & ts' & Hrun & Hsub' & Ht' & Hrows' & Hnd' & Hfresh').
    + apply insert_subseteq_r; [done|].
      apply insert_subseteq_r; [|done]. by eapply lookup_weaken_None.
    + apply lookup_insert_eq.
    + apply Forall2_app.
      * apply rows_at_insert_other; [done|]. by apply rows_at_insert_other.
      * constructor; [|constructor].
        rewrite lookup_insert_ne by done. apply lookup_insert_eq.
    + apply NoDup_app. split; [done|]. split; [|apply NoDup_singleton].
      intros x Hx ->%list_elem_of_singleton. done.
    + apply Forall_app. split; [done|]. constructor; [|constructor].
      by eapply lookup_weaken_None.
    + exists h', ts'. rewrite Hrow. cbn [map]. rewrite <- app_assoc in Hrows'.
      done.
  - apply Nat.ltb_ge in Hi.
    assert (data !! i = None) as -> by (apply lookup_ge_None; lia).
    by apply (IH h ts acc).
Qed.

End extract.

(** [extract_table_data] is total on a grid in the store: it returns
    a new list of new rows, which hold the slices of the rows of the
    grid inside the bounds, and leaves every object of the store as
    it was. *)
Lemma extract_table_data_spec (h : heap) (g : loc) (data : list (list Cell))
    (boundaries : nat * nat * nat * nat) :
  read_table h g = Some data →
  ∃ t (h' : heap) ts,
    TableExtractor.extract_table_data g boundaries h = Ok (t, h') ∧
    h ⊆ h' ∧ h !! t = None ∧ h' !! t = Some (OList ts) ∧
    rows_at h' ts (sliced data boundaries) ∧
    NoDup ts ∧ Forall (λ l, h !! l = None) ts.
Proof.
  intros (items & Hg & Hdata)%read_table_Some.
  destruct boundaries as [[[start_row end_row] start_col] end_col].
  unfold TableExtractor.extract_table_data, sliced.
  unfold mbind at 1, Py_bind at 1, alloc at 1.
  set (t := fresh (dom h)).
  assert (h !! t = None) as Ht by (apply not_elem_of_dom, is_fresh).
  destruct (copy_rows_spec h g t items data start_col end_col Hg Hdata Ht
              (seq start_row (end_row + 1 - start_row))
              (<[t := OList []]> h) [] [])
    as (h' & ts & Hrun & Hsub & Ht' & Hrows & Hnd & Hfresh).
  - by apply insert_subseteq.
  - apply lookup_insert_eq.
  - constructor.
  - constructor.
  - constructor.
  - exists t, h', ts. unfold mbind, Py_bind. rewrite Hrun.
    rewrite omap_lookup_seq in Hrows. done.
Qed.

(** ** Adding the group column *)

Lemma non_empty_Group : TableExtractor.non_empty (CStr "Group") = true.
Proof. vm_compute. reflexivity. Qed.

(** The loop of [add_group_column] over the rows from index [i] on. *)
Lemma append_group_ids_spec (t : loc) (group_id : string) (ts : list loc) (n : nat) :
  ∀ i (h : heap) vals,
    h !! t = Some (OList ts) → rows_at h ts vals → NoDup ts → i + n = length ts →
    ∃ h' : heap,
      for_ (seq i n) (TableExtractor.append_group_id t group_id) h = Ok ((), h') ∧
      h' !! t = Some (OList ts) ∧
      rows_at h' ts (take i vals ++ map (λ row, row ++ [CStr group_id]) (drop i vals)) ∧
      ∀ l, l ∉ ts → h' !! l = h !! l.
Proof.
  induction n as [|n IH]; intros i h vals Ht Hrows Hnd Hlen.
  { exists h. pose proof (Forall2_length _ _ _ Hrows).
    rewrite drop_ge, take_ge, app_nil_r by lia. done. }
  cbn [seq for_]. unfold mbind at 1, Py_bind at 1.
  unfold TableExtractor.append_group_id at 1, mbind, Py_bind, get_list. rewrite Ht.
  destruct (lookup_lt_is_Some_2 ts i ltac:(lia)) as [r Hr].
  destruct (Forall2_lookup_l _ _ _ _ _ Hrows Hr) as (v & Hv & Hhr).
  unfold lift, py_index. rewrite Hr. unfold row_append. rewrite Hhr.
  assert (r ≠ t) as Hrt by congruence.
  destruct (IH (S i) (<[r := ORow (v ++ [CStr group_id])]> h)
              (<[i := v ++ [CStr group_id]]> vals))
    as (h' & Hrun & Ht' & Hrows' & Hframe).
  - by rewrite lookup_insert_ne.
  - by eapply rows_at_append.
  - done.
  - lia.
  - exists h'. split; [done|]. split; [done|]. split.
    + rewrite drop_insert_lt in Hrows' by lia.
      rewrite (take_S_r _ _ (v ++ [CStr group_id])) in Hrows'.
      2:{ apply list_lookup_insert_eq. by eapply lookup_lt_Some. }
      rewrite take_insert_ge in Hrows' by lia.
      rewrite (drop_S _ _ _ Hv). cbn [map].
      by rewrite <- app_assoc in Hrows'.
    + intros l Hl. rewrite Hframe by done.
      apply lookup_insert_ne. intros ->. apply Hl.
      apply list_elem_of_lookup. by exists i.
Qed.

Lemma has_header_Ok (h : heap) (t r0 : loc) (rs : list loc) (c0 : list Cell) :
  h !! t = Some (OList (r0 :: rs)) → h !! r0 = Some (ORow c0) →
  TableExtractor.has_header t h = Ok (existsb TableExtractor.non_empty c0, h).
Proof.
  intros Ht Hr0.
  unfold TableExtractor.has_header, mbind, Py_bind, get_list, get_row, lift, py_index.
  rewrite Ht. simpl. by rewrite Hr0.
Qed.

Lemma append_group_header_Ok (h : heap) (t r0 : loc) (rs : list loc) (c0 : list Cell) :
  h !! t = Some (OList (r0 :: rs)) → h !! r0 = Some (ORow c0) →
  TableExtractor.append_group_header t h
    = Ok ((), <[r0 := ORow (c0 ++ [CStr "Group"])]> h).
Proof.
  intros Ht Hr0.
  unfold TableExtractor.append_group_header, mbind, Py_bind, get_list, row_append,
    lift, py_index.
  rewrite Ht. simpl. by rewrite Hr0.
Qed.

(** [add_group_column] on a table of distinct rows returns the
    reference it was given; through that reference the table now has
    the group column; no object but the rows of the table changes. *)
Lemma add_group_column_spec (h : heap) (t : loc) (group_id : string)
    (r0 : loc) (rs : list loc) (c0 : list Cell) (cs : list (list Cell)) :
  h !! t = Some (OList (r0 :: rs)) → rows_at h (r0 :: rs) (c0 :: cs) →
  NoDup (r0 :: rs) →
  ∃ h' : heap,
    TableExtractor.add_group_column t group_id h = Ok (t, h') ∧
    h' !! t = Some (OList (r0 :: rs)) ∧
    rows_at h' (r0 :: rs) (with_group group_id (c0 :: cs)) ∧
    ∀ l, l ∉ r0 :: rs → h' !! l = h !! l.
Proof.
  intros Ht Hrows Hnd.
  pose proof (Forall2_cons_1 _ _ _ _ _ Hrows) as [Hr0 _].
  assert (r0 ≠ t) as Hr0t by congruence.
  set (h1 := <[r0 := ORow (c0 ++ [CStr "Group"])]> h).
  assert (h1 !! t = Some (OList (r0 :: rs))) as Ht1.
  { unfold h1. by rewrite lookup_insert_ne. }
  assert (rows_at h1 (r0 :: rs) ((c0 ++ [CStr "Group"]) :: cs)) as Hrows1.
  { apply (rows_at_append h (r0 :: rs) (c0 :: cs) 0 r0 c0); done. }
  destruct (append_group_ids_spec t group_id (r0 :: rs) (length rs) 1 h1
              ((c0 ++ [CStr "Group"]) :: cs) Ht1 Hrows1 Hnd)
    as (h' & Hrun & Ht' & Hrows' & Hframe); [simpl; lia|].
  exists h'.
  assert (TableExtractor.add_group_column t group_id h = Ok (t, h')) as Hcall.
  { unfold TableExtractor.add_group_column.
    unfold mbind at 1, Py_bind at 1, get_list at 1. rewrite Ht.
    cbn [length Nat.eqb].
    unfold mbind at 1, Py_bind at 1. rewrite (has_header_Ok _ _ _ _ _ Ht Hr0).
    unfold mbind at 1, Py_bind at 1.
    assert ((if existsb TableExtractor.non_empty c0
             then TableExtractor.append_group_header t
             else items ← get_list t;
                  if negb (length items =? 0)
                  then TableExtractor.append_group_header t
                  else r ← alloc (ORow [CStr "Group"]); list_append t r) h
            = Ok ((), h1)) as ->.
    { destruct (existsb TableExtractor.non_empty c0).
      - by apply append_group_header_Ok with rs.
      - unfold mbind at 1, Py_bind at 1, get_list at 1. rewrite Ht.
        cbn [length Nat.eqb negb]. by apply append_group_header_Ok with rs. }
    unfold mbind at 1, Py_bind at 1.
    rewrite (has_header_Ok h1 t r0 rs (c0 ++ [CStr "Group"])); [|done|].
    2:{ unfold h1. apply lookup_insert_eq. }
    rewrite existsb_app. cbn [existsb]. rewrite non_empty_Group.
    rewrite orb_true_r.
    unfold mbind at 1, Py_bind at 1, get_list at 1. rewrite Ht1.
    cbn [length]. rewrite Nat.sub_succ, Nat.sub_0_r.
    unfold mbind, Py_bind. rewrite Hrun. done. }
  split; [done|]. split; [done|]. split; [done|].
  intros l Hl. rewrite Hframe by done. unfold h1.
  apply lookup_insert_ne. intros ->. apply Hl. left.
Qed.

(** ** One sheet *)

Lemma sliced_length (data : list (list Cell)) (header_row end_row start_col end_col : nat) :
  length (sliced data (header_row, end_row, start_col, end_col))
    = Nat.min (end_row + 1 - header_row) (length data - header_row).
Proof. unfold sliced. by rewrite length_map, length_take, length_drop. Qed.

(** [process_sheet] is total on a grid in the store.  Without bounds
    it skips the sheet and leaves the store as it is.  With bounds it
    returns a new table, the slice of the grid with the group column,
    and every object that was in the store before is left as it was. *)
Lemma process_sheet_spec (self : TableExtractor.ExcelTableExtractor) (h : heap)
    (sheet : loc) (data : list (list Cell)) (group_id : string) :
  read_table h sheet = Some data →
  match TableExtractor.find_table_boundaries self data with
  | None => TableExtractor.process_sheet self sheet group_id h = Ok (None, h)
  | Some boundaries =>
      ∃ t (h' : heap),
        TableExtractor.process_sheet self sheet group_id h = Ok (Some t, h') ∧
        h ⊆ h' ∧ h !! t = None ∧
        sliced data boundaries ≠ [] ∧
        read_table h' t = Some (with_group group_id (sliced data boundaries))
  end.
Proof.
  intros Hread. pose proof Hread as (items & Hg & Hdata)%read_table_Some.
  destruct (TableExtractor.find_table_boundaries self data)
    as [[[[header_row end_row] start_col] end_col]|] eqn:Hb.
  - destruct data as [|row0 rest]; [done|].
    destruct items as [|i0 items]; [by apply Forall2_nil_cons_inv in Hdata|].
    unfold TableExtractor.process_sheet.
    unfold mbind at 1, Py_bind at 1, get_list at 1. rewrite Hg.
    cbn [length Nat.eqb].
    unfold mbind at 1, Py_bind at 1, snapshot at 1. rewrite Hread, Hb.
    apply find_table_boundaries_rows in Hb as [Hle Hlt].
    set (boundaries := (header_row, end_row, start_col, end_col)).
    destruct (extract_table_data_spec h sheet (row0 :: rest) boundaries Hread)
      as (t & h1 & ts & Hrun & Hsub & Ht & Ht1 & Hrows & Hnd & Hfresh).
    unfold mbind at 1, Py_bind at 1. rewrite Hrun.
    unfold mbind at 1, Py_bind at 1, get_list at 1. rewrite Ht1.
    pose proof (sliced_length (row0 :: rest) header_row end_row start_col end_col)
      as Hlen.
    fold boundaries in Hlen.
    destruct (sliced (row0 :: rest) boundaries) as [|c0 cs] eqn:Hsl.
    { cbn [length] in Hlen, Hlt. lia. }
    destruct ts as [|r0 rs]; [by apply Forall2_nil_cons_inv in Hrows|].
    cbn [length Nat.eqb].
    destruct (add_group_column_spec h1 t group_id r0 rs c0 cs Ht1 Hrows Hnd)
      as (h' & Hcall & Ht' & Hrows' & Hframe).
    unfold mbind, Py_bind. rewrite Hcall.
    exists t, h'. split; [done|]. split; [|split; [done|split; [done|]]].
    + apply map_subseteq_spec. intros l o Hl.
      rewrite Hframe; [exact (lookup_weaken _ _ _ _ Hl Hsub)|].
      intros Hin. rewrite Forall_forall in Hfresh.
      specialize (Hfresh l Hin). congruence.
    + apply read_table_Some. by exists (r0 :: rs).
  - unfold TableExtractor.process_sheet.
    unfold mbind at 1, Py_bind at 1, get_list at 1. rewrite Hg.
    destruct items as [|i0 items]; [done|].
    cbn [length Nat.eqb].
    unfold mbind at 1, Py_bind at 1, snapshot at 1. by rewrite Hread, Hb.
Qed.

(** ** Short rows *)

Lemma table_row_length (row : list Cell) (start_col end_col : nat) :
  length (TableExtractor.table_row row start_col end_col) = end_col + 1 - start_col.
Proof.
  unfold TableExtractor.table_row. rewrite length_drop, length_take.
  destruct (length row <=? end_col) eqn:Hle.
  - apply Nat.leb_le in Hle. rewrite length_app, length_replicate. lia.
  - apply Nat.leb_gt in Hle. lia.
Qed.

(** In table_extractor.py every row of the table has the width of the
    bounds: a short row is padded, not left out. *)
Lemma sliced_widths (data : list (list Cell)) (header_row end_row start_col end_col : nat) :
  Forall (λ row, length row = end_col + 1 - start_col)
    (sliced data (header_row, end_row, start_col, end_col)).
Proof.
  unfold sliced. apply Forall_map, Forall_forall. intros row _. simpl.
  apply table_row_length.
Qed.

(** C3: a data row shorter than the table is to be padded with empty
    cells.  On a grid whose data row has one cell where the header has
    three, Updated.py and function_app.py raise [IndexError] at
    [rows[row_idx][col_idx]]; table_extractor.py pads the row with
    [None] and keeps it. *)
Theorem C3_short_row_raises :
  Updated.detect_table_from_rows short_row = Raise IndexError ∧
  FunctionApp.detect_table_in_worksheet short_row = Raise IndexError ∧
  TableExtractor.find_table_boundaries TableExtractor.default short_row
    = Some (0, 1, 0, 2) ∧
  sliced short_row (0, 1, 0, 2)
    = [ [CStr "a"; CStr "b"; CStr "c"]; [CStr "x"; CNone; CNone] ] ∧
  read_table short_row_store short_row_table
    = Some [ [CStr "a"; CStr "b"; CStr "c"; CStr "Group"];
             [CStr "x"; CNone; CNone; CStr ""] ].
Proof. repeat split; vm_compute; reflexivity. Qed.

(** ** Enrichment and the store *)

(** C8, the claim as it stands fails: after [add_group_column] the
    caller's table, read through the reference that the caller holds,
    is not what it was. *)
Lemma C8_counterexample :
  ¬ (∀ (h : heap) table_data group_id,
       match TableExtractor.add_group_column table_data group_id h with
       | Ok (_, h') => read_table h' table_data = read_table h table_data
       | Raise _ => True
       end).
Proof.
  intros H. specialize (H small_table 0 "G"). vm_compute in H. discriminate H.
Qed.

(** C8, amended: the enrichment works in place.  [add_group_column]
    returns the reference it was given, and the caller's table is the
    table with the group column afterwards; [transform_dataframe]
    returns the reference it was given, and the caller's frame has
    the two source columns afterwards.  Neither changes another
    object: [add_group_column] touches the rows of the table only,
    [transform_dataframe] the frame only, and a sheet that is
    processed leaves the grid, and every object that was in the store
    before, as it was. *)
Theorem C8_enrichment_in_place :
  (∀ (h : heap) t group_id r0 rs c0 cs,
     h !! t = Some (OList (r0 :: rs)) → rows_at h (r0 :: rs) (c0 :: cs) →
     NoDup (r0 :: rs) →
     ∃ h' : heap,
       TableExtractor.add_group_column t group_id h = Ok (t, h') ∧
       read_table h' t = Some (with_group group_id (c0 :: cs)) ∧
       ∀ l, l ∉ r0 :: rs → h' !! l = h !! l) ∧
  (∀ (h : heap) df columns values sheet_name filename,
     h !! df = Some (OFrame columns values) →
     ∃ columns' values',
       Updated.transform_dataframe df sheet_name filename h
         = Ok (df, <[df := OFrame columns' values']> h) ∧
       "source_file" ∈ columns' ∧ "source_sheet" ∈ columns') ∧
  (∀ self (h : heap) sheet data group_id,
     read_table h sheet = Some data →
     ∃ res (h' : heap),
       TableExtractor.process_sheet self sheet group_id h = Ok (res, h') ∧
       h ⊆ h' ∧ read_table h' sheet = Some data).
Proof.
  split; [|split].
  - intros h t group_id r0 rs c0 cs Ht Hrows Hnd.
    destruct (add_group_column_spec h t group_id r0 rs c0 cs Ht Hrows Hnd)
      as (h' & Hcall & Ht' & Hrows' & Hframe).
    exists h'. split; [done|]. split; [|done].
    apply read_table_Some. by exists (r0 :: rs).
  - intros h df columns values sheet_name filename Hdf.
    eexists _, _. split; [by apply transform_dataframe_run|].
    apply transformed_source.
  - intros self h sheet data group_id Hread.
    pose proof (process_sheet_spec self h sheet data group_id Hread) as Hspec.
    destruct (TableExtractor.find_table_boundaries self data) as [b|].
    + destruct Hspec as (t & h' & Hrun & Hsub & _ & _ & _).
      exists (Some t), h'. split; [done|]. split; [done|].
      by eapply read_table_weaken.
    + exists None, h. done.
Qed.

Lemma C8_enrichment_in_place_witness :
  ∃ h' : heap,
    TableExtractor.add_group_column 0 "G" small_table = Ok (0, h') ∧
    read_table h' 0 = Some [ [CStr "h"; CStr "Group"]; [CStr "x"; CStr "G"] ] ∧
    ∀ l, l ∉ [1; 2] → h' !! l = small_table !! l.
Proof.
  destruct C8_enrichment_in_place as (Hadd & _).
  apply (Hadd small_table 0 "G" 1 [2] [CStr "h"] [ [CStr "x"] ]).
  - vm_compute. reflexivity.
  - repeat constructor.
  - apply NoDup_cons. split.
    + intros Hin. apply list_elem_of_singleton in Hin. discriminate Hin.
    + apply NoDup_singleton.
Defined.

(** ** The group column *)

(** C9: whenever [process_sheet] hands on a table, the table is the
    slice of the grid inside the bounds, its first row with the cell
    [Group] appended and every other row with the group identifier
    appended, whatever the group identifier is: for the empty
    identifier every data row ends with an empty string. *)
Theorem C9_group_column_unconditional (self : TableExtractor.ExcelTableExtractor)
    (h : heap) (sheet : loc) (data : list (list Cell)) (group_id : string)
    (t : loc) (h' : heap) :
  read_table h sheet = Some data →
  TableExtractor.process_sheet self sheet group_id h = Ok (Some t, h') →
  ∃ boundaries header body,
    TableExtractor.find_table_boundaries self data = Some boundaries ∧
    sliced data boundaries = header :: body ∧
    read_table h' t
      = Some ((header ++ [CStr "Group"]) :: map (λ row, row ++ [CStr group_id]) body).
Proof.
  intros Hread Hrun.
  pose proof (process_sheet_spec self h sheet data group_id Hread) as Hspec.
  destruct (TableExtractor.find_table_boundaries self data) as [b|]; [|congruence].
  destruct Hspec as (t' & h'' & Hrun' & _ & _ & Hne & Htable).
  rewrite Hrun in Hrun'. injection Hrun' as <- <-.
  destruct (sliced data b) as [|header body] eqn:Hsl; [done|].
  by exists b, header, body.
Qed.

Lemma C9_group_column_unconditional_witness :
  ∃ boundaries header body,
    TableExtractor.find_table_boundaries TableExtractor.default short_row
      = Some boundaries ∧
    sliced short_row boundaries = header :: body ∧
    read_table short_row_store short_row_table
      = Some ((header ++ [CStr "Group"]) :: map (λ row, row ++ [CStr ""]) body).
Proof.
  apply (C9_group_column_unconditional TableExtractor.default short_row_sheet 0
           short_row "" short_row_table short_row_store).
  - vm_compute. reflexivity.
  - vm_compute. reflexivity.
Defined.

(** * Further properties of the code *)

(** ** Dense rows and sparse rows *)

(** The comparison with the product [0.8 * n] in whole numbers. *)
Lemma ge_times_80 (k n : nat) : ge_times k (8 # 10) n = true ↔ 4 * n ≤ 5 * k.
Proof.
  unfold ge_times, as_float. rewrite Qle_bool_iff.
  unfold Qle, Qmult, inject_Z. simpl Qnum. simpl Qden. lia.
Qed.

Lemma ge_times_80_false (k n : nat) : ge_times k (8 # 10) n = false ↔ 5 * k < 4 * n.
Proof.
  pose proof (ge_times_80 k n) as H.
  destruct (ge_times k (8 # 10) n); split; intros; try done.
  - apply proj1 in H. specialize (H eq_refl). lia.
  - destruct (decide (4 * n ≤ 5 * k)) as [Hle|]; [|lia].
    apply H in Hle. done.
Qed.

(** A loop that leaves at its first hit, over the whole list. *)
Lemma scan_from_zero {A} (p : A → bool) (l : list A) :
  match scan_from p 0 l with
  | Some j => (∃ x, l !! j = Some x ∧ p x = true) ∧
              ∀ i x, i < j → l !! i = Some x → p x = false
  | None => ∀ i x, l !! i = Some x → p x = false
  end.
Proof.
  destruct (scan_from p 0 l) as [j|] eqn:Hscan.
  - apply scan_from_Some in Hscan as (k & x & -> & Hk & Hx & Hlt).
    split; [by exists x|]. intros i y Hi Hy. by apply (Hlt i).
  - apply scan_from_None in Hscan. intros i x Hx.
    rewrite Forall_forall in Hscan. apply Hscan.
    apply list_elem_of_lookup. by exists i.
Qed.

(** The end row of a table whose header row is [h]: the row before
    the first row below [h] that satisfies [p], or the last row. *)
Lemma end_scan_spec {A} (p : A → bool) (rows : list A) (h : nat) :
  h < length rows →
  let e := match scan_from p (h + 1) (drop (h + 1) rows) with
           | Some i => i - 1
           | None => length rows - 1
           end in
  (h ≤ e ∧ e < length rows) ∧
  (∀ i row, h < i → i ≤ e → rows !! i = Some row → p row = false) ∧
  (∀ row, rows !! (e + 1) = Some row → p row = true).
Proof.
  intros Hh. cbn zeta.
  destruct (scan_from p (h + 1) (drop (h + 1) rows)) as [j|] eqn:Hscan.
  - apply scan_from_Some in Hscan as (k & x & -> & Hk & Hx & Hlt).
    pose proof (lookup_lt_Some _ _ _ Hk) as Hklt. rewrite length_drop in Hklt.
    rewrite lookup_drop in Hk.
    split; [lia|]. split.
    + intros i row Hi Hie Hrow.
      apply (Hlt (i - (h + 1)) row); [lia|].
      rewrite lookup_drop. rewrite <- Hrow. f_equal. lia.
    + intros row Hrow. replace (h + 1 + k - 1 + 1) with (h + 1 + k) in Hrow by lia.
      congruence.
  - apply scan_from_None in Hscan. split; [lia|]. split.
    + intros i row Hi Hie Hrow. rewrite Forall_forall in Hscan. apply Hscan.
      apply list_elem_of_lookup. exists (i - (h + 1)).
      rewrite lookup_drop. rewrite <- Hrow. f_equal. lia.
    + intros row Hrow. apply lookup_lt_Some in Hrow. lia.
Qed.

(** X1: in function_app.py the header row is the first row in which
    at least four fifths of the column count are cells that are not
    absent and not blank; without such a row no header row is found. *)
Theorem X1_header_row_first_dense (rows : list (list Cell)) (num_cols : nat) :
  match FunctionApp.find_header_row rows num_cols with
  | Some header_row =>
      (∃ row, rows !! header_row = Some row ∧
         4 * num_cols ≤ 5 * count_if FunctionApp.non_empty row) ∧
      ∀ i row, i < header_row → rows !! i = Some row →
        5 * count_if FunctionApp.non_empty row < 4 * num_cols
  | None =>
      ∀ i row, rows !! i = Some row →
        5 * count_if FunctionApp.non_empty row < 4 * num_cols
  end.
Proof.
  unfold FunctionApp.find_header_row.
  pose proof (scan_from_zero
    (λ row, ge_times (count_if FunctionApp.non_empty row) (8 # 10) num_cols) rows) as H.
  destruct (scan_from _ 0 rows) as [h|].
  - destruct H as [(row & Hrow & Hge) Hlt]. split.
    + exists row. split; [done|]. by apply ge_times_80.
    + intros i row' Hi Hrow'. apply ge_times_80_false. by apply (Hlt i).
  - intros i row Hrow. apply ge_times_80_false. by apply (H i).
Qed.

(** X2: in function_app.py the end row of a table with header row
    [h] lies in the grid, not above [h]; every row below [h] up to
    the end row has fewer than four fifths of the column count in
    empty cells, and the row after the end row, when there is one,
    has at least that many. *)
Theorem X2_end_row_first_sparse (rows : list (list Cell)) (num_cols header_row : nat) :
  header_row < length rows →
  (header_row ≤ FunctionApp.find_end_row rows num_cols header_row ∧
   FunctionApp.find_end_row rows num_cols header_row < length rows) ∧
  (∀ i row, header_row < i → i ≤ FunctionApp.find_end_row rows num_cols header_row →
     rows !! i = Some row → 5 * count_if FunctionApp.empty row < 4 * num_cols) ∧
  (∀ row, rows !! (FunctionApp.find_end_row rows num_cols header_row + 1) = Some row →
     4 * num_cols ≤ 5 * count_if FunctionApp.empty row).
Proof.
  intros Hh. unfold FunctionApp.find_end_row.
  destruct (end_scan_spec
    (λ row, ge_times (count_if FunctionApp.empty row) (8 # 10) num_cols)
    rows header_row Hh) as (Hbounds & Hin & Hout).
  split; [done|]. split.
  - intros i row Hi Hie Hrow. apply ge_times_80_false. by apply (Hin i).
  - intros row Hrow. apply ge_times_80. by apply Hout.
Qed.

Lemma X2_end_row_first_sparse_witness :
  (1 ≤ FunctionApp.find_end_row scenario 3 1 ∧
   FunctionApp.find_end_row scenario 3 1 < length scenario) ∧
  (∀ i row, 1 < i → i ≤ FunctionApp.find_end_row scenario 3 1 →
     scenario !! i = Some row → 5 * count_if FunctionApp.empty row < 4 * 3) ∧
  (∀ row, scenario !! (FunctionApp.find_end_row scenario 3 1 + 1) = Some row →
     4 * 3 ≤ 5 * count_if FunctionApp.empty row).
Proof.
  apply (X2_end_row_first_sparse scenario 3 1). vm_compute. lia.
Defined.

Lemma scan_from_ext_in {A} (p q : A → bool) (l : list A) (i : nat) :
  Forall (λ x, p x = q x) l → scan_from p i l = scan_from q i l.
Proof.
  intros Hpq. revert i. induction Hpq as [|x l Hx _ IH]; intros i; simpl; [done|].
  by rewrite Hx, IH.
Qed.

Lemma count_if_ext_in {A} (p q : A → bool) (l : list A) :
  Forall (λ x, p x = q x) l → count_if p l = count_if q l.
Proof. induction 1 as [|x l Hx _ IH]; simpl; [done|]. by rewrite Hx, IH. Qed.

(** X3: on a grid without absent cells, as xlrd hands it over,
    Updated.py and function_app.py find the same header row and the
    same end row. *)
Theorem X3_variants_agree_without_None (rows : list (list Cell)) (num_cols : nat) :
  Forall (Forall (λ cell, is_None cell = false)) rows →
  Updated.find_header_row rows num_cols = FunctionApp.find_header_row rows num_cols ∧
  ∀ header_row,
    Updated.find_end_row rows num_cols header_row
      = FunctionApp.find_end_row rows num_cols header_row.
Proof.
  intros Hrows.
  assert (Forall (λ row : list Cell,
            count_if Updated.non_empty row = count_if FunctionApp.non_empty row ∧
            count_if Updated.empty row = count_if FunctionApp.empty row) rows) as Hcount.
  { eapply Forall_impl; [exact Hrows|]. intros row Hrow. split.
    - apply count_if_ext_in. eapply Forall_impl; [exact Hrow|].
      intros cell Hcell. unfold Updated.non_empty, FunctionApp.non_empty.
      by rewrite Hcell.
    - apply count_if_ext_in. eapply Forall_impl; [exact Hrow|].
      intros cell Hcell. unfold Updated.empty, FunctionApp.empty.
      by rewrite Hcell. }
  split.
  - unfold Updated.find_header_row, FunctionApp.find_header_row.
    apply scan_from_ext_in. eapply Forall_impl; [exact Hcount|].
    by intros row [-> _].
  - intros header_row. unfold Updated.find_end_row, FunctionApp.find_end_row.
    rewrite (scan_from_ext_in
      (λ row, ge_times (count_if Updated.empty row) (8 # 10) num_cols)
      (λ row, ge_times (count_if FunctionApp.empty row) (8 # 10) num_cols)); [done|].
    apply Forall_drop. eapply Forall_impl; [exact Hcount|].
    by intros row [_ ->].
Qed.

Lemma X3_variants_agree_without_None_witness :
  Updated.find_header_row scenario 3 = FunctionApp.find_header_row scenario 3 ∧
  ∀ header_row,
    Updated.find_end_row scenario 3 header_row
      = FunctionApp.find_end_row scenario 3 header_row.
Proof.
  apply (X3_variants_agree_without_None scenario 3).
  repeat constructor.
Defined.

(** ** The table of Updated.py, cell by cell *)

Lemma mapM_Res_cons {A B} (f : A → Res B) (x : A) (l : list A) :
  mapM f (x :: l)
    = match f x with
      | Ok y => match mapM f l with
                | Ok k => Ok (y :: k)
                | Raise e => Raise e
                end
      | Raise e => Raise e
      end.
Proof. reflexivity. Qed.

(** The cells [rows[r][c]] for [c] in [range(s, s + n)]. *)
Lemma row_cells_eval (rows : list (list Cell)) (r : nat) (row : list Cell) (n : nat) :
  rows !! r = Some row →
  ∀ s, s ≤ length row →
    mapM (λ col_idx, cell_at rows r col_idx) (seq s n)
      = if decide (s + n ≤ length row) then Ok (take n (drop s row))
        else Raise IndexError.
Proof.
  intros Hr. induction n as [|n IH]; intros s Hs.
  { simpl. rewrite decide_True by lia. done. }
  cbn [seq]. rewrite mapM_Res_cons.
  unfold cell_at at 1, py_index, mbind, Res_bind. rewrite Hr.
  destruct (row !! s) as [cell|] eqn:Hcell.
  - pose proof (lookup_lt_Some _ _ _ Hcell). rewrite IH by lia.
    destruct (decide (S s + n ≤ length row)).
    + rewrite decide_True by lia. rewrite (drop_S _ _ _ Hcell). done.
    + rewrite decide_False by lia. done.
  - apply lookup_ge_None in Hcell. rewrite decide_False by lia. done.
Qed.

(** The labels of [rows[r][c]] for [c] in [range(s, s + n)]. *)
Lemma row_labels_eval (label : Cell → nat → string) (rows : list (list Cell))
    (r : nat) (row : list Cell) (n : nat) :
  rows !! r = Some row →
  ∀ s, s ≤ length row →
    mapM (λ col_idx, header ← cell_at rows r col_idx; mret (label header col_idx))
      (seq s n)
      = if decide (s + n ≤ length row)
        then Ok (imap (λ k cell, label cell (s + k)) (take n (drop s row)))
        else Raise IndexError.
Proof.
  intros Hr. induction n as [|n IH]; intros s Hs.
  { simpl. rewrite decide_True by lia. done. }
  cbn [seq]. rewrite mapM_Res_cons.
  destruct (row !! s) as [cell|] eqn:Hcell.
  - assert (cell_at rows r s = Ok cell) as -> by (apply cell_at_Ok; eauto).
    pose proof (lookup_lt_Some _ _ _ Hcell). rewrite IH by lia.
    unfold mbind, Res_bind, mret, Res_ret.
    destruct (decide (S s + n ≤ length row)).
    + rewrite decide_True by lia. rewrite (drop_S _ _ _ Hcell). cbn [take imap].
      rewrite Nat.add_0_r. do 2 f_equal.
      apply imap_ext. intros k x _. simpl. f_equal. lia.
    + rewrite decide_False by lia. done.
  - assert (cell_at rows r s = Raise IndexError) as ->.
    { unfold cell_at, py_index, mbind, Res_bind. by rewrite Hr, Hcell. }
    apply lookup_ge_None in Hcell. rewrite decide_False by lia. done.
Qed.

(** The rows [rows[r]] for [r] in [range(s, s + cnt)], cut to [n]
    cells each. *)
Lemma rows_cells_eval (rows : list (list Cell)) (n cnt : nat) :
  ∀ s, s + cnt ≤ length rows →
    mapM (λ row_idx, mapM (λ col_idx, cell_at rows row_idx col_idx) (seq 0 n))
      (seq s cnt)
      = if decide (Forall (λ row, n ≤ length row) (take cnt (drop s rows)))
        then Ok (map (take n) (take cnt (drop s rows)))
        else Raise IndexError.
Proof.
  induction cnt as [|cnt IH]; intros s Hs.
  { simpl. done. }
  destruct (lookup_lt_is_Some_2 rows s ltac:(lia)) as [row Hrow].
  cbn [seq]. rewrite mapM_Res_cons.
  rewrite (row_cells_eval rows s row n Hrow 0) by lia.
  rewrite (drop_S _ _ _ Hrow). cbn [take map]. rewrite drop_0.
  destruct (decide (0 + n ≤ length row)) as [Hn|Hn].
  - rewrite IH by lia.
    destruct (decide (Forall _ (take cnt (drop (S s) rows)))) as [Hall|Hall].
    + rewrite decide_True by (constructor; [lia|done]). done.
    + rewrite decide_False; [done|]. by intros [_ ?]%Forall_cons.
  - rewrite decide_False; [done|]. intros [? _]%Forall_cons. lia.
Qed.

(** What [detect_table_from_rows] of Updated.py returns, for a grid
    whose first row has a cell. *)
Lemma Updated_detect_eval (row0 : list Cell) (rest : list (list Cell)) :
  let rows := row0 :: rest in
  let n := length row0 in
  0 < n →
  Updated.detect_table_from_rows rows
    = match Updated.find_header_row rows n with
      | None => Ok None
      | Some h =>
          let e := Updated.find_end_row rows n h in
          if e <=? h then Ok None
          else if decide (Forall (λ row, n ≤ length row) (take (e + 1 - h) (drop h rows)))
          then Ok (Some (mkTable
                 (imap (λ k cell, Updated.header_label cell k)
                    (take n (default [] (rows !! h))))
                 (map (take n) (take (e - h) (drop (h + 1) rows)))))
          else Raise IndexError
      end.
Proof.
  intros rows n Hn. subst rows n. unfold Updated.detect_table_from_rows.
  set (n := length row0) in *. set (rows := row0 :: rest).
  destruct (n =? 0) eqn:Hn0; [apply Nat.eqb_eq in Hn0; lia|].
  destruct (Updated.find_header_row rows n) as [h|] eqn:Hh; [|done].
  cbn zeta. set (e := Updated.find_end_row rows n h).
  destruct (e <=? h) eqn:Hle; [done|]. apply Nat.leb_gt in Hle.
  pose proof Hh as Hh'. unfold Updated.find_header_row in Hh'.
  apply scan_from_Some in Hh' as (k & hrow & -> & Hhrow & _).
  change (0 + k) with k in *.
  pose proof (lookup_lt_Some _ _ _ Hhrow) as Hhlt.
  assert (e < length rows) as He.
  { pose proof (end_scan_spec
      (λ row, ge_times (count_if Updated.empty row) (8 # 10) n) rows k Hhlt) as Hend.
    cbn zeta in Hend. fold (Updated.find_end_row rows n k) in Hend. fold e in Hend.
    lia. }
  unfold Updated.make_headers, Updated.make_data.
  rewrite (row_labels_eval Updated.header_label rows k hrow n Hhrow 0) by lia.
  rewrite rows_cells_eval by lia.
  rewrite Hhrow. cbn [default from_option id]. rewrite drop_0.
  replace (e + 1 - k) with (S (e - k)) by lia.
  rewrite (drop_S _ _ _ Hhrow). cbn [take].
  replace (S k) with (k + 1) by lia.
  unfold mbind, Res_bind, mret, Res_ret.
  destruct (decide (0 + n ≤ length hrow)) as [Hrow|Hrow].
  - destruct (decide (Forall _ (take (e - k) (drop (k + 1) rows)))) as [Hall|Hall].
    + rewrite decide_True by (constructor; [lia|done]). done.
    + rewrite decide_False; [done|]. by intros [_ ?]%Forall_cons.
  - rewrite decide_False; [done|]. intros [? _]%Forall_cons. lia.
Qed.

(** The rows of the grid from the header row to the end row. *)
Lemma span_short_row (rows : list (list Cell)) (n h e : nat) :
  h ≤ e → e < length rows →
  ¬ Forall (λ row, n ≤ length row) (take (e + 1 - h) (drop h rows)) ↔
  ∃ i row, h ≤ i ∧ i ≤ e ∧ rows !! i = Some row ∧ length row < n.
Proof.
  intros Hhe He. split.
  - intros Hnot. apply not_Forall_Exists in Hnot; [|apply _].
    apply Exists_exists in Hnot as (row & Hin & Hlt).
    apply list_elem_of_lookup in Hin as (j & Hj).
    apply lookup_take_Some in Hj as [Hj Hjlt]. rewrite lookup_drop in Hj.
    simpl in Hlt. exists (h + j), row. repeat split; [lia|lia|done|lia].
  - intros (i & row & Hhi & Hie & Hrow & Hlt) Hall.
    rewrite Forall_forall in Hall.
    assert (n ≤ length row); [|lia]. apply Hall.
    apply list_elem_of_lookup. exists (i - h).
    apply lookup_take_Some. split; [|lia].
    rewrite lookup_drop. rewrite <- Hrow. f_equal. lia.
Qed.

(** The shape of a table that Updated.py returns. *)
Lemma Updated_detect_shape (rows : list (list Cell)) (t : Table) :
  Updated.detect_table_from_rows rows = Ok (Some t) →
  ∃ header_row,
    Updated.find_header_row rows (length (hd [] rows)) = Some header_row ∧
    header_row < Updated.find_end_row rows (length (hd [] rows)) header_row ∧
    Updated.find_end_row rows (length (hd [] rows)) header_row < length rows ∧
    data t = map (take (length (hd [] rows)))
               (take (Updated.find_end_row rows (length (hd [] rows)) header_row
                      - header_row)
                  (drop (header_row + 1) rows)) ∧
    length (data t)
      = Updated.find_end_row rows (length (hd [] rows)) header_row - header_row ∧
    Forall (λ row, length row = length (headers t)) (data t) ∧
    length (headers t) = length (hd [] rows).
Proof.
  destruct rows as [|row0 rest]; [done|]. cbn [hd].
  destruct (decide (0 < length row0)) as [Hn|Hn].
  2:{ unfold Updated.detect_table_from_rows.
      replace (length row0) with 0 by lia. done. }
  rewrite (Updated_detect_eval row0 rest Hn).
  set (rows := row0 :: rest). set (n := length row0) in *.
  destruct (Updated.find_header_row rows n) as [h|] eqn:Hh; [|done].
  cbn zeta. set (e := Updated.find_end_row rows n h).
  destruct (e <=? h) eqn:Hle; [done|]. apply Nat.leb_gt in Hle.
  destruct (decide (Forall _ _)) as [Hall|]; [|done].
  intros [= <-]. cbn [data headers]. exists h. split; [done|]. split; [done|].
  unfold Updated.find_header_row in Hh.
  apply scan_from_Some in Hh as (k & hrow & -> & Hhrow & _).
  change (0 + k) with k in *.
  pose proof (lookup_lt_Some _ _ _ Hhrow) as Hhlt.
  pose proof (end_scan_spec
    (λ row, ge_times (count_if Updated.empty row) (8 # 10) n) rows k Hhlt) as Hend.
  cbn zeta in Hend. fold (Updated.find_end_row rows n k) in Hend. fold e in Hend.
  destruct Hend as [[_ He] _].
  replace (e + 1 - k) with (S (e - k)) in Hall by lia.
  rewrite (drop_S _ _ _ Hhrow) in Hall. cbn [take] in Hall.
  apply Forall_cons in Hall as [Hrow Hall]. replace (S k) with (k + 1) in Hall by lia.
  rewrite Hhrow. cbn [default from_option id].
  assert (length (imap (λ k cell, Updated.header_label cell k) (take n hrow)) = n) as Hlen.
  { rewrite length_imap, length_take. lia. }
  split; [done|]. split; [done|]. split.
  { rewrite length_map, length_take, length_drop. lia. }
  split; [|done].
  rewrite Hlen. apply Forall_map. eapply Forall_impl; [exact Hall|].
  intros row Hr. simpl in *. rewrite length_take. lia.
Qed.

(** X4: a table that Updated.py returns has one header for each
    column of the first row; its data rows are the rows of the grid
    below the header row up to the end row, at least one, each cut to
    the width of the first row, so that every data row has as many
    cells as there are headers. *)
Theorem X4_table_is_rectangular (rows : list (list Cell)) (t : Table) :
  Updated.detect_table_from_rows rows = Ok (Some t) →
  ∃ header_row,
    Updated.find_header_row rows (length (hd [] rows)) = Some header_row ∧
    header_row < Updated.find_end_row rows (length (hd [] rows)) header_row ∧
    Updated.find_end_row rows (length (hd [] rows)) header_row < length rows ∧
    data t = map (take (length (hd [] rows)))
               (take (Updated.find_end_row rows (length (hd [] rows)) header_row
                      - header_row)
                  (drop (header_row + 1) rows)) ∧
    length (data t)
      = Updated.find_end_row rows (length (hd [] rows)) header_row - header_row ∧
    Forall (λ row, length row = length (headers t)) (data t) ∧
    length (headers t) = length (hd [] rows).
Proof. apply Updated_detect_shape. Qed.

Lemma X4_table_is_rectangular_witness :
  ∃ header_row,
    Updated.find_header_row scenario 3 = Some header_row ∧
    header_row < Updated.find_end_row scenario 3 header_row ∧
    Updated.find_end_row scenario 3 header_row < length scenario ∧
    [ [CStr "1"; CStr "A"; CStr "5"]; [CStr "2"; CStr "B"; CStr "3"] ]
      = map (take 3)
          (take (Updated.find_end_row scenario 3 header_row - header_row)
             (drop (header_row + 1) scenario)) ∧
    2 = Updated.find_end_row scenario 3 header_row - header_row ∧
    Forall (λ row : list Cell, length row = 3)
      [ [CStr "1"; CStr "A"; CStr "5"]; [CStr "2"; CStr "B"; CStr "3"] ] ∧
    3 = 3.
Proof.
  apply (X4_table_is_rectangular scenario
           (mkTable ["ID"; "Name"; "Qty"]
              [ [CStr "1"; CStr "A"; CStr "5"]; [CStr "2"; CStr "B"; CStr "3"] ])).
  vm_compute. reflexivity.
Defined.

(** X5: [detect_table_from_rows] of Updated.py raises nothing but
    [IndexError], and it raises exactly when it has found a header
    row and an end row below it and one of the rows from the header
    row to the end row is shorter than the first row of the grid.  On
    a grid whose rows all have the length of the first row it never
    raises. *)
Theorem X5_raises_iff_short_row (rows : list (list Cell)) :
  (∀ ex, Updated.detect_table_from_rows rows = Raise ex ↔
     ex = IndexError ∧
     ∃ header_row,
       Updated.find_header_row rows (length (hd [] rows)) = Some header_row ∧
       header_row < Updated.find_end_row rows (length (hd [] rows)) header_row ∧
       ∃ i row,
         header_row ≤ i ∧
         i ≤ Updated.find_end_row rows (length (hd [] rows)) header_row ∧
         rows !! i = Some row ∧ length row < length (hd [] rows)) ∧
  (Forall (λ row, length row = length (hd [] rows)) rows →
   ∃ res, Updated.detect_table_from_rows rows = Ok res).
Proof.
  assert (∀ ex, Updated.detect_table_from_rows rows = Raise ex ↔
     ex = IndexError ∧
     ∃ header_row,
       Updated.find_header_row rows (length (hd [] rows)) = Some header_row ∧
       header_row < Updated.find_end_row rows (length (hd [] rows)) header_row ∧
       ∃ i row,
         header_row ≤ i ∧
         i ≤ Updated.find_end_row rows (length (hd [] rows)) header_row ∧
         rows !! i = Some row ∧ length row < length (hd [] rows)) as Hiff.
  { intros ex. destruct rows as [|row0 rest].
    { split; [done|]. intros (_ & h & _ & _ & i & row & _ & _ & Hrow & _). done. }
    cbn [hd]. destruct (decide (0 < length row0)) as [Hn|Hn].
    2:{ unfold Updated.detect_table_from_rows.
        replace (length row0) with 0 by lia. split; [done|].
        intros (_ & h & _ & _ & i & row & _ & _ & _ & Hlt). lia. }
    rewrite (Updated_detect_eval row0 rest Hn).
    set (rows := row0 :: rest). set (n := length row0) in *.
    destruct (Updated.find_header_row rows n) as [h|] eqn:Hh.
    2:{ split; [done|]. by intros (_ & h & ? & _). }
    cbn zeta. set (e := Updated.find_end_row rows n h).
    destruct (e <=? h) eqn:Hle.
    { apply Nat.leb_le in Hle. split; [done|].
      intros (_ & h' & [= <-] & Hlt & _). fold e in Hlt. lia. }
    apply Nat.leb_gt in Hle.
    pose proof Hh as Hh'. unfold Updated.find_header_row in Hh'.
    apply scan_from_Some in Hh' as (k & hrow & -> & Hhrow & _).
    change (0 + k) with k in *.
    pose proof (lookup_lt_Some _ _ _ Hhrow) as Hhlt.
    pose proof (end_scan_spec
      (λ row, ge_times (count_if Updated.empty row) (8 # 10) n) rows k Hhlt) as Hend.
    cbn zeta in Hend. fold (Updated.find_end_row rows n k) in Hend. fold e in Hend.
    destruct Hend as [[_ He] _].
    pose proof (span_short_row rows n k e ltac:(lia) He) as Hspan.
    destruct (decide (Forall _ _)) as [Hall|Hall].
    - split; [done|]. intros (_ & h' & [= <-] & _ & Hshort).
      fold e in Hshort. by apply Hspan in Hshort.
    - split.
      + intros [= <-]. split; [done|]. exists k. split; [done|]. split; [done|].
        fold e. by apply Hspan.
      + by intros [-> _]. }
  split; [exact Hiff|].
  intros Hrect. destruct (Updated.detect_table_from_rows rows) as [res|ex] eqn:Hres.
  - by exists res.
  - destruct (proj1 (Hiff ex) eq_refl) as (_ & h & _ & _ & i & row & _ & _ & Hrow & Hlt).
    rewrite Forall_forall in Hrect.
    assert (length row = length (hd [] rows)); [|lia].
    apply Hrect. apply list_elem_of_lookup. by exists i.
Qed.

Lemma X5_raises_iff_short_row_witness :
  ∃ res, Updated.detect_table_from_rows scenario = Ok res.
Proof.
  destruct (X5_raises_iff_short_row scenario) as [_ Hrect].
  apply Hrect. repeat constructor.
Defined.

(** ** The bounds of table_extractor.py *)

(** A quotient that reaches a positive threshold has a positive count. *)
Lemma ratio_positive (t : Q) (k n : nat) :
  (0 < t)%Q → Qle_bool t (ratio k n) = true → 0 < k.
Proof.
  intros Ht Hle. apply Qle_bool_iff in Hle.
  destruct k as [|k]; [|lia].
  exfalso. apply (Qlt_not_le _ _ Ht). unfold ratio in Hle. simpl in Hle.
  unfold Qle in *. simpl in *. lia.
Qed.

Lemma count_if_pad_row (row : list Cell) (cols : nat) :
  count_if TableExtractor.non_empty (TableExtractor.pad_row row cols)
    = count_if TableExtractor.non_empty row.
Proof.
  unfold TableExtractor.pad_row. destruct (length row <? cols); [|done].
  rewrite count_if_app, count_if_replicate_false by done. lia.
Qed.

Lemma count_if_pos {A} (p : A → bool) (l : list A) :
  0 < count_if p l → ∃ i x, l !! i = Some x ∧ p x = true.
Proof.
  induction l as [|y l IH]; simpl; [lia|].
  destruct (p y) eqn:Hy.
  - intros _. by exists 0, y.
  - intros Hpos. destruct (IH Hpos) as (i & x & Hi & Hx). by exists (S i), x.
Qed.

Lemma max_len_ge (data : list (list Cell)) (i : nat) (row : list Cell) :
  data !! i = Some row → length row ≤ TableExtractor.max_len data.
Proof.
  unfold TableExtractor.max_len. revert i.
  induction data as [|r data IH]; intros [|i] Hi; simpl in *; try done.
  - injection Hi as ->. lia.
  - specialize (IH i Hi). lia.
Qed.

(** The inner loop of the two column loops: some cell of column
    [col] in the rows from [header_row] to [table_end] is neither
    absent nor blank. *)
Lemma has_data_true (data : list (list Cell)) (header_row table_end col : nat) :
  TableExtractor.has_data data header_row table_end col = true ↔
  ∃ i row cell, header_row ≤ i ∧ i ≤ table_end ∧ data !! i = Some row ∧
                row !! col = Some cell ∧ TableExtractor.non_empty cell = true.
Proof.
  unfold TableExtractor.has_data. rewrite existsb_exists. split.
  - intros (i & Hin & Hi). apply in_seq in Hin.
    destruct (data !! i) as [row|] eqn:Hrow; [|done].
    destruct (row !! col) as [cell|] eqn:Hcell; [|done].
    exists i, row, cell. repeat split; [lia|lia|done|done|done].
  - intros (i & row & cell & Hhi & Hie & Hrow & Hcell & Hne).
    exists i. split; [apply in_seq; lia|]. by rewrite Hrow, Hcell.
Qed.

Lemma find_seq_Some (f : nat → bool) (n : nat) :
  ∀ s c, List.find f (seq s n) = Some c →
    (s ≤ c ∧ c < s + n) ∧ f c = true ∧ ∀ c', s ≤ c' → c' < c → f c' = false.
Proof.
  induction n as [|n IH]; intros s c; simpl; [done|].
  destruct (f s) eqn:Hs.
  - intros [= <-]. split; [lia|]. split; [done|]. intros; lia.
  - intros (Hc & Hfc & Hmin)%IH. split; [lia|]. split; [done|].
    intros c' Hsc Hc'. destruct (decide (c' = s)) as [->|]; [done|].
    apply Hmin; lia.
Qed.

Lemma find_rev_seq_Some (f : nat → bool) (n c : nat) :
  List.find f (rev (seq 0 n)) = Some c →
  c < n ∧ f c = true ∧ ∀ c', c < c' → c' < n → f c' = false.
Proof.
  induction n as [|n IH]; [done|].
  rewrite seq_S, rev_unit. simpl.
  destruct (f n) eqn:Hn.
  - intros [= <-]. split; [lia|]. split; [done|]. intros; lia.
  - intros (Hc & Hfc & Hmax)%IH. split; [lia|]. split; [done|].
    intros c' Hcc Hc'. destruct (decide (c' = n)) as [->|]; [done|].
    apply Hmax; lia.
Qed.

Lemma find_seq_None (f : nat → bool) (l : list nat) (c : nat) :
  List.find f l = None → c ∈ l → f c = false.
Proof. intros Hnone Hin. apply (find_none f l Hnone). by apply list_elem_of_In. Qed.

(** The bounds that [find_table_boundaries] returns, step by step. *)
Lemma find_table_boundaries_Some (self : TableExtractor.ExcelTableExtractor)
    (data : list (list Cell)) (h e sc ec : nat) :
  TableExtractor.find_table_boundaries self data = Some (h, e, sc, ec) →
  let cols := TableExtractor.max_len data in
  0 < cols ∧
  TableExtractor.find_header_row self data cols = Some h ∧
  e = TableExtractor.find_table_end self data cols h ∧
  sc = match List.find (TableExtractor.has_data data h e) (seq 0 cols) with
       | Some col => col
       | None => 0
       end ∧
  ec = match List.find (TableExtractor.has_data data h e) (rev (seq 0 cols)) with
       | Some col => col
       | None => cols - 1
       end.
Proof.
  unfold TableExtractor.find_table_boundaries.
  destruct data as [|row0 rest]; [done|]. set (data := row0 :: rest).
  cbn zeta. destruct (TableExtractor.max_len data =? 0) eqn:Hcols; [done|].
  apply Nat.eqb_neq in Hcols.
  destruct (TableExtractor.find_header_row self data _) as [h'|]; [|done].
  intros [= <- <- <- <-]. repeat split; lia.
Qed.

(** X6: the column bounds of [find_table_boundaries] enclose the
    data.  Every cell that is neither absent nor blank in a row from
    the header row to the end row lies in a column from [start_col]
    to [end_col], and [start_col <= end_col] are columns of the
    grid.  With a positive value threshold the bounds are tight: the
    columns [start_col] and [end_col] each hold such a cell. *)
Theorem X6_columns_enclose_data (self : TableExtractor.ExcelTableExtractor)
    (data : list (list Cell)) (header_row end_row start_col end_col : nat) :
  TableExtractor.find_table_boundaries self data
    = Some (header_row, end_row, start_col, end_col) →
  (start_col ≤ end_col ∧ end_col < TableExtractor.max_len data) ∧
  (∀ i row col cell,
     header_row ≤ i → i ≤ end_row → data !! i = Some row → row !! col = Some cell →
     TableExtractor.non_empty cell = true → start_col ≤ col ∧ col ≤ end_col) ∧
  ((0 < TableExtractor.value_threshold self)%Q →
   TableExtractor.has_data data header_row end_row start_col = true ∧
   TableExtractor.has_data data header_row end_row end_col = true).
Proof.
  intros Hb. pose proof (find_table_boundaries_rows _ _ _ _ _ _ Hb) as [Hhe He].
  apply find_table_boundaries_Some in Hb as (Hcols & Hh & _ & Hsc & Hec).
  set (cols := TableExtractor.max_len data) in *.
  set (F := TableExtractor.has_data data header_row end_row) in *.
  assert (∀ i row col cell,
     header_row ≤ i → i ≤ end_row → data !! i = Some row → row !! col = Some cell →
     TableExtractor.non_empty cell = true → F col = true ∧ col < cols) as Hcell.
  { intros i row col cell Hhi Hie Hrow Hc Hne. split.
    - apply has_data_true. by exists i, row, cell.
    - pose proof (lookup_lt_Some _ _ _ Hc). pose proof (max_len_ge _ _ _ Hrow).
      unfold cols. lia. }
  destruct (List.find F (seq 0 cols)) as [c1|] eqn:H1.
  - apply find_seq_Some in H1 as (Hc1 & HF1 & Hmin).
    destruct (List.find F (rev (seq 0 cols))) as [c2|] eqn:H2.
    2:{ exfalso. assert (F c1 = false); [|congruence].
        apply (find_seq_None F _ _ H2). apply list_elem_of_In, in_rev.
        rewrite rev_involutive. apply in_seq. lia. }
    apply find_rev_seq_Some in H2 as (Hc2 & HF2 & Hmax). subst start_col end_col.
    assert (c1 ≤ c2) as Hle.
    { destruct (decide (c1 ≤ c2)); [done|].
      assert (F c1 = false); [apply Hmax; lia|congruence]. }
    split; [lia|]. split; [|done].
    intros i row col cell Hhi Hie Hrow Hc Hne.
    destruct (Hcell i row col cell Hhi Hie Hrow Hc Hne) as [HF Hlt]. split.
    + destruct (decide (c1 ≤ col)); [done|].
      assert (F col = false); [apply Hmin; lia|congruence].
    + destruct (decide (col ≤ c2)); [done|].
      assert (F col = false); [apply Hmax; lia|congruence].
  - assert (∀ col, col < cols → F col = false) as Hnone.
    { intros col Hcol. apply (find_seq_None F _ _ H1).
      apply list_elem_of_In, in_seq. lia. }
    destruct (List.find F (rev (seq 0 cols))) as [c2|] eqn:H2.
    { apply find_rev_seq_Some in H2 as (Hc2 & HF2 & _).
      rewrite Hnone in HF2 by done. done. }
    subst start_col end_col. split; [lia|]. split.
    + intros i row col cell Hhi Hie Hrow Hc Hne.
      destruct (Hcell i row col cell Hhi Hie Hrow Hc Hne) as [HF Hlt].
      rewrite Hnone in HF by done. done.
    + intros Hpos. exfalso.
      unfold TableExtractor.find_header_row in Hh.
      apply scan_from_Some in Hh as (k & hrow & -> & Hhrow & Hdense & _).
      change (0 + k) with k in *.
      apply (ratio_positive _ _ _ Hpos) in Hdense. rewrite count_if_pad_row in Hdense.
      apply count_if_pos in Hdense as (col & cell & Hc & Hne).
      destruct (Hcell k hrow col cell ltac:(lia) Hhe Hhrow Hc Hne) as [HF Hlt].
      rewrite Hnone in HF by done. done.
Qed.

Lemma X6_columns_enclose_data_witness :
  (0 ≤ 2 ∧ 2 < TableExtractor.max_len short_row) ∧
  (∀ i row col cell,
     0 ≤ i → i ≤ 1 → short_row !! i = Some row → row !! col = Some cell →
     TableExtractor.non_empty cell = true → 0 ≤ col ∧ col ≤ 2) ∧
  ((0 < TableExtractor.value_threshold TableExtractor.default)%Q →
   TableExtractor.has_data short_row 0 1 0 = true ∧
   TableExtractor.has_data short_row 0 1 2 = true).
Proof.
  apply (X6_columns_enclose_data TableExtractor.default short_row 0 1 0 2).
  vm_compute. reflexivity.
Defined.

(** X7: the row bounds of [find_table_boundaries] follow the two
    thresholds.  With the density of a row being its number of cells
    that are neither absent nor blank over the length of the longest
    row, the header row is the first row whose density reaches the
    value threshold; every row below it up to the end row has a
    density of at least the empty threshold; and the row after the
    end row, when there is one, has a density below the empty
    threshold. *)
Theorem X7_rows_follow_thresholds (self : TableExtractor.ExcelTableExtractor)
    (data : list (list Cell)) (header_row end_row start_col end_col : nat) :
  TableExtractor.find_table_boundaries self data
    = Some (header_row, end_row, start_col, end_col) →
  let density row :=
    ratio (count_if TableExtractor.non_empty row) (TableExtractor.max_len data) in
  (∃ row, data !! header_row = Some row ∧
          (TableExtractor.value_threshold self <= density row)%Q) ∧
  (∀ i row, i < header_row → data !! i = Some row →
     ¬ (TableExtractor.value_threshold self <= density row)%Q) ∧
  (∀ i row, header_row < i → i ≤ end_row → data !! i = Some row →
     (TableExtractor.empty_threshold self <= density row)%Q) ∧
  (∀ row, data !! (end_row + 1) = Some row →
     ¬ (TableExtractor.empty_threshold self <= density row)%Q).
Proof.
  intros Hb density.
  apply find_table_boundaries_Some in Hb as (Hcols & Hh & He & _ & _).
  set (cols := TableExtractor.max_len data) in *.
  unfold TableExtractor.find_header_row in Hh.
  pose proof (scan_from_zero
    (λ row, Qle_bool (TableExtractor.value_threshold self)
              (ratio (count_if TableExtractor.non_empty (TableExtractor.pad_row row cols))
                 cols)) data) as Hscan.
  rewrite Hh in Hscan. destruct Hscan as [(hrow & Hhrow & Hdense) Hfirst].
  pose proof (lookup_lt_Some _ _ _ Hhrow) as Hhlt.
  pose proof (end_scan_spec
    (λ row, negb (Qle_bool (TableExtractor.empty_threshold self)
              (ratio (count_if TableExtractor.non_empty (TableExtractor.pad_row row cols))
                 cols))) data header_row Hhlt) as Hend.
  cbn zeta in Hend.
  fold (TableExtractor.find_table_end self data cols header_row) in Hend.
  rewrite <- He in Hend. destruct Hend as (_ & Hin & Hout).
  unfold density. fold cols. split; [|split; [|split]].
  - exists hrow. split; [done|]. apply Qle_bool_iff.
    by rewrite count_if_pad_row in Hdense.
  - intros i row Hi Hrow Hle. apply Qle_bool_iff in Hle.
    specialize (Hfirst i row Hi Hrow). simpl in Hfirst.
    rewrite count_if_pad_row in Hfirst. congruence.
  - intros i row Hi Hie Hrow. apply Qle_bool_iff.
    specialize (Hin i row Hi Hie Hrow). simpl in Hin.
    rewrite count_if_pad_row in Hin. by apply negb_false_iff in Hin.
  - intros row Hrow Hle. apply Qle_bool_iff in Hle.
    specialize (Hout row Hrow). simpl in Hout.
    rewrite count_if_pad_row in Hout. apply negb_true_iff in Hout. congruence.
Qed.

Lemma X7_rows_follow_thresholds_witness :
  let density row :=
    ratio (count_if TableExtractor.non_empty row) (TableExtractor.max_len short_row) in
  (∃ row, short_row !! 0 = Some row ∧
          (TableExtractor.value_threshold TableExtractor.default <= density row)%Q) ∧
  (∀ i row, i < 0 → short_row !! i = Some row →
     ¬ (TableExtractor.value_threshold TableExtractor.default <= density row)%Q) ∧
  (∀ i row, 0 < i → i ≤ 1 → short_row !! i = Some row →
     (TableExtractor.empty_threshold TableExtractor.default <= density row)%Q) ∧
  (∀ row, short_row !! (1 + 1) = Some row →
     ¬ (TableExtractor.empty_threshold TableExtractor.default <= density row)%Q).
Proof.
  apply (X7_rows_follow_thresholds TableExtractor.default short_row 0 1 0 2).
  vm_compute. reflexivity.
Defined.

(** X8: [find_table_boundaries] finds no table exactly when no row of
    the grid has a cell, or no row has a density that reaches the
    value threshold. *)
Theorem X8_no_table_iff (self : TableExtractor.ExcelTableExtractor)
    (data : list (list Cell)) :
  TableExtractor.find_table_boundaries self data = None ↔
  TableExtractor.max_len data = 0 ∨
  ∀ i row, data !! i = Some row →
    ¬ (TableExtractor.value_threshold self
       <= ratio (count_if TableExtractor.non_empty row) (TableExtractor.max_len data))%Q.
Proof.
  unfold TableExtractor.find_table_boundaries.
  destruct data as [|row0 rest].
  { split; [by left|done]. }
  set (data := row0 :: rest). cbn zeta. set (cols := TableExtractor.max_len data).
  destruct (cols =? 0) eqn:Hcols.
  { apply Nat.eqb_eq in Hcols. split; [by left|done]. }
  apply Nat.eqb_neq in Hcols.
  unfold TableExtractor.find_header_row.
  pose proof (scan_from_zero
    (λ row, Qle_bool (TableExtractor.value_threshold self)
              (ratio (count_if TableExtractor.non_empty (TableExtractor.pad_row row cols))
                 cols)) data) as Hscan.
  destruct (scan_from _ 0 data) as [h|].
  - split; [done|]. intros [?|Hnone]; [done|]. exfalso.
    destruct Hscan as [(hrow & Hhrow & Hdense) _].
    rewrite count_if_pad_row in Hdense. apply Qle_bool_iff in Hdense.
    by apply (Hnone h hrow).
  - split; [|done]. intros _. right. intros i row Hrow Hle.
    apply Qle_bool_iff in Hle. specialize (Hscan i row Hrow). simpl in Hscan.
    rewrite count_if_pad_row in Hscan. congruence.
Qed.

(** ** Tables in the store *)



Lemma with_group_length (group_id : string) (table : list (list Cell)) :
  length (with_group group_id table) = length table.
Proof. destruct table; simpl; [done|]. by rewrite length_map. Qed.

Lemma with_group_widths (group_id : string) (table : list (list Cell)) (w : nat) :
  Forall (λ row, length row = w) table →
  Forall (λ row, length row = w + 1) (with_group group_id table).
Proof.
  destruct table as [|header body]; simpl; [done|].
  intros [Hh Hb]%Forall_cons. constructor.
  - rewrite length_app. simpl. lia.
  - apply Forall_map. eapply Forall_impl; [exact Hb|].
    intros row Hr. simpl in *. rewrite length_app. simpl. lia.
Qed.

(** X10: the table that [process_sheet] hands on is rectangular: it
    has the header row and the rows down to the end row, and every
    row, the header row too, has the cells of the columns from
    [start_col] to [end_col] and one cell more. *)
Theorem X10_processed_table_is_rectangular (self : TableExtractor.ExcelTableExtractor)
    (h : heap) (sheet : loc) (data : list (list Cell)) (group_id : string)
    (t : loc) (h' : heap) :
  read_table h sheet = Some data →
  TableExtractor.process_sheet self sheet group_id h = Ok (Some t, h') →
  ∃ header_row end_row start_col end_col table,
    TableExtractor.find_table_boundaries self data
      = Some (header_row, end_row, start_col, end_col) ∧
    read_table h' t = Some table ∧
    length table = end_row - header_row + 1 ∧
    Forall (λ row, length row = end_col + 1 - start_col + 1) table.
Proof.
  intros Hread Hrun.
  pose proof (process_sheet_spec self h sheet data group_id Hread) as Hspec.
  destruct (TableExtractor.find_table_boundaries self data)
    as [[[[header_row end_row] start_col] end_col]|] eqn:Hb; [|congruence].
  destruct Hspec as (t' & h'' & Hrun' & _ & _ & _ & Htable).
  rewrite Hrun in Hrun'. injection Hrun' as <- <-.
  apply find_table_boundaries_rows in Hb as [Hle Hlt].
  eexists header_row, end_row, start_col, end_col, _.
  split; [done|]. split; [exact Htable|]. split.
  - rewrite with_group_length, sliced_length. lia.
  - apply with_group_widths, sliced_widths.
Qed.

Lemma X10_processed_table_is_rectangular_witness :
  ∃ header_row end_row start_col end_col table,
    TableExtractor.find_table_boundaries TableExtractor.default short_row
      = Some (header_row, end_row, start_col, end_col) ∧
    read_table short_row_store short_row_table = Some table ∧
    length table = end_row - header_row + 1 ∧
    Forall (λ row, length row = end_col + 1 - start_col + 1) table.
Proof.
  apply (X10_processed_table_is_rectangular TableExtractor.default short_row_sheet 0
           short_row "" short_row_table short_row_store).
  - vm_compute. reflexivity.
  - vm_compute. reflexivity.
Defined.

(** X11: [process_sheet] never raises on a grid in the store.  It
    passes over the sheet exactly when [find_table_boundaries] finds
    no table, and then the store is as it was; otherwise it hands on
    a table at a reference that was not in use. *)
Theorem X11_process_sheet_total (self : TableExtractor.ExcelTableExtractor)
    (h : heap) (sheet : loc) (data : list (list Cell)) (group_id : string) :
  read_table h sheet = Some data →
  ∃ res (h' : heap),
    TableExtractor.process_sheet self sheet group_id h = Ok (res, h') ∧
    (res = None ↔ TableExtractor.find_table_boundaries self data = None) ∧
    (res = None → h' = h) ∧
    (∀ t, res = Some t → h !! t = None).
Proof.
  intros Hread.
  pose proof (process_sheet_spec self h sheet data group_id Hread) as Hspec.
  destruct (TableExtractor.find_table_boundaries self data) as [b|].
  - destruct Hspec as (t & h' & Hrun & _ & Ht & _ & _).
    exists (Some t), h'. split; [done|]. split; [done|]. split; [done|].
    by intros ? [= <-].
  - exists None, h. done.
Qed.

Lemma X11_process_sheet_total_witness :
  ∃ res (h' : heap),
    TableExtractor.process_sheet TableExtractor.default 0 "G" short_row_sheet
      = Ok (res, h') ∧
    (res = None ↔
     TableExtractor.find_table_boundaries TableExtractor.default short_row = None) ∧
    (res = None → h' = short_row_sheet) ∧
    (∀ t, res = Some t → short_row_sheet !! t = None).
Proof.
  apply (X11_process_sheet_total TableExtractor.default short_row_sheet 0 short_row "G").
  vm_compute. reflexivity.
Defined.

(** ** Strings *)

Lemma length_app_s (a b : string) :
  String.length (a +:+ b) = String.length a + String.length b.
Proof. induction a as [|c a IH]; [done|]. rewrite app_String. simpl. by rewrite IH. Qed.

Lemma app_empty_r (s : string) : s +:+ "" = s.
Proof. induction s as [|c s IH]; [done|]. rewrite app_String. by rewrite IH. Qed.

Lemma app_assoc_s (a b c : string) : (a +:+ b) +:+ c = a +:+ (b +:+ c).
Proof. induction a as [|x a IH]; [done|]. rewrite !app_String. by rewrite IH. Qed.

Lemma sdrop_app_length (a b : string) :
  EventTrigger.sdrop (String.length a) (a +:+ b) = b.
Proof. induction a as [|c a IH]; [done|]. rewrite app_String. simpl. apply IH. Qed.

Lemma sdrop_app_le (k : nat) (a b : string) :
  k ≤ String.length a →
  EventTrigger.sdrop k (a +:+ b) = EventTrigger.sdrop k a +:+ b.
Proof.
  revert a. induction k as [|k IH]; intros a Hk; [done|].
  destruct a as [|c a]; simpl in Hk; [lia|].
  rewrite app_String. simpl. apply IH. lia.
Qed.

Lemma stake_app_length (a b : string) :
  EventTrigger.stake (String.length a) (a +:+ b) = a.
Proof. induction a as [|c a IH]; [done|]. rewrite app_String. simpl. by rewrite IH. Qed.

Lemma length_sdrop (k : nat) (s : string) :
  String.length (EventTrigger.sdrop k s) = String.length s - k.
Proof.
  revert s. induction k as [|k IH]; intros s; simpl; [lia|].
  destruct s as [|c s]; simpl; [done|]. apply IH.
Qed.

(** Equal ends of equal length. *)
Lemma app_inj_tail_length (a z u t : string) :
  a +:+ u = z +:+ t → String.length u = String.length t → a = z ∧ u = t.
Proof.
  revert z. induction a as [|c a IH]; intros z Heq Hlen.
  - destruct z as [|c' z]; [done|]. rewrite app_empty in Heq. subst u.
    rewrite length_app_s in Hlen. simpl in Hlen. lia.
  - destruct z as [|c' z].
    + rewrite app_empty in Heq. subst t.
      rewrite length_app_s in Hlen. simpl in Hlen. lia.
    + rewrite !app_String in Heq. injection Heq as -> Heq.
      destruct (IH z Heq Hlen) as [-> ->]. done.
Qed.

Lemma contains_app (c : ascii) (a b : string) :
  contains c (a +:+ b) = contains c a || contains c b.
Proof.
  induction a as [|x a IH]; [done|]. rewrite app_String. simpl.
  rewrite IH. by rewrite orb_assoc.
Qed.

(** [s.endswith(suffix)] holds exactly for the strings that end with
    [suffix]. *)
Lemma endswith_true (s suffix : string) :
  endswith s suffix = true ↔ ∃ a, s = a +:+ suffix.
Proof.
  unfold endswith. rewrite andb_true_iff, Nat.leb_le, String.eqb_eq. split.
  - intros [Hlen Heq].
    exists (EventTrigger.stake (String.length s - String.length suffix) s).
    rewrite <- Heq at 2. by rewrite stake_sdrop.
  - intros [a ->]. rewrite length_app_s. split; [lia|].
    replace (String.length a + String.length suffix - String.length suffix)
      with (String.length a) by lia.
    apply sdrop_app_length.
Qed.

Lemma lower_app (a b : string) :
  EventTrigger.lower (a +:+ b) = EventTrigger.lower a +:+ EventTrigger.lower b.
Proof. induction a as [|c a IH]; [done|]. rewrite app_String. simpl. by rewrite IH. Qed.

Lemma length_lower (s : string) :
  String.length (EventTrigger.lower s) = String.length s.
Proof. induction s as [|c s IH]; simpl; [done|]. by rewrite IH. Qed.

Lemma group_id_part_chars (blob_name : string) :
  contains "_" (TableExtractor.extract_group_id blob_name) = false ∧
  ∀ c, contains c blob_name = false →
       contains c (TableExtractor.extract_group_id blob_name) = false.
Proof.
  unfold TableExtractor.extract_group_id.
  pose proof (split_parts "_" blob_name) as Hparts.
  pose proof (split_join "_" blob_name) as Hjoin.
  destruct (TableExtractor.split "_" blob_name) as [|a [|b rest]]; try done.
  cbn [length Nat.leb nth].
  apply Forall_cons in Hparts as [_ [Hb _]%Forall_cons].
  split; [done|]. intros c Hc. rewrite <- Hjoin in Hc.
  change (join "_" (a :: b :: rest)) with (a +:+ String "_" (join "_" (b :: rest))) in Hc.
  rewrite contains_app in Hc. apply orb_false_elim in Hc as [_ Hc].
  simpl in Hc. apply orb_false_elim in Hc as [_ Hc].
  destruct rest as [|r rest]; [done|].
  change (join "_" (b :: r :: rest)) with (b +:+ String "_" (join "_" (r :: rest))) in Hc.
  rewrite contains_app in Hc. by apply orb_false_elim in Hc as [Hc _].
Qed.

(** X12: the group identifier is a piece of the name between
    underscores: it has no underscore, and it has no character that
    the name does not have. *)
Theorem X12_group_id_is_a_part (blob_name : string) :
  contains "_" (TableExtractor.extract_group_id blob_name) = false ∧
  ∀ c, contains c blob_name = false →
       contains c (TableExtractor.extract_group_id blob_name) = false.
Proof. apply group_id_part_chars. Qed.

(** ** The last occurrence of a character *)

Lemma rfind_from_none (c : ascii) (i : Z) (s : string) :
  (0 ≤ i)%Z → EventTrigger.rfind_from c i s = (-1)%Z → contains c s = false.
Proof.
  revert i. induction s as [|x s IH]; intros i Hi; simpl; [done|].
  destruct (EventTrigger.rfind_from c (i + 1) s =? -1)%Z eqn:Hr.
  - apply Z.eqb_eq in Hr. rewrite (IH (i + 1)%Z ltac:(lia) Hr).
    destruct (Ascii.eqb x c); [lia|done].
  - apply Z.eqb_neq in Hr. done.
Qed.

Lemma rfind_from_no_char (c : ascii) (i : Z) (s : string) :
  contains c s = false → EventTrigger.rfind_from c i s = (-1)%Z.
Proof.
  revert i. induction s as [|x s IH]; intros i; simpl; [done|].
  intros [Hx Hs]%orb_false_elim. rewrite (IH _ Hs). simpl. by rewrite Hx.
Qed.

(** The index that [rfind] returns lies in the string. *)
Lemma rfind_from_range (c : ascii) (i : Z) (s : string) :
  (0 ≤ i)%Z →
  EventTrigger.rfind_from c i s = (-1)%Z ∨
  (i ≤ EventTrigger.rfind_from c i s < i + Z.of_nat (String.length s))%Z.
Proof.
  revert i. induction s as [|x s IH]; intros i Hi; simpl; [by left|].
  destruct (IH (i + 1)%Z ltac:(lia)) as [Hr|Hr].
  - rewrite Hr. simpl. destruct (Ascii.eqb x c); [right; lia|by left].
  - destruct (_ =? -1)%Z eqn:Heq; [apply Z.eqb_eq in Heq; lia|]. right. lia.
Qed.

(** After the last occurrence of [c] there is no [c]. *)
Lemma rfind_from_sdrop (c : ascii) (i : Z) (s : string) :
  (0 ≤ i)%Z →
  contains c (EventTrigger.sdrop (Z.to_nat (EventTrigger.rfind_from c i s - i + 1)) s)
    = false.
Proof.
  revert i. induction s as [|x s IH]; intros i Hi.
  { simpl. by destruct (Z.to_nat _). }
  simpl EventTrigger.rfind_from.
  destruct (rfind_from_range c (i + 1) s ltac:(lia)) as [Hr|Hr].
  - rewrite Hr. simpl Z.eqb. cbv iota. pose proof (rfind_from_none c (i + 1) s ltac:(lia) Hr) as Hs.
    destruct (Ascii.eqb x c) eqn:Hx.
    + replace (i - i + 1)%Z with 1%Z by lia. done.
    + replace (Z.to_nat (-1 - i + 1)) with 0 by lia. simpl. by rewrite Hx, Hs.
  - destruct (_ =? -1)%Z eqn:Heq; [apply Z.eqb_eq in Heq; lia|].
    replace (Z.to_nat (EventTrigger.rfind_from c (i + 1) s - i + 1))
      with (S (Z.to_nat (EventTrigger.rfind_from c (i + 1) s - (i + 1) + 1))) by lia.
    simpl. apply IH. lia.
Qed.

Lemma rfind_from_app_no_char (c : ascii) (i : Z) (a b : string) :
  contains c b = false →
  EventTrigger.rfind_from c i (a +:+ b) = EventTrigger.rfind_from c i a.
Proof.
  intros Hb. revert i. induction a as [|x a IH]; intros i.
  - rewrite app_empty. simpl. by apply rfind_from_no_char.
  - rewrite app_String. simpl. by rewrite IH.
Qed.

(** The last occurrence of [c] in a string that ends with [c] and a
    rest without [c]. *)
Lemma rfind_from_app_last (c : ascii) (i : Z) (a b : string) :
  (0 ≤ i)%Z → contains c b = false →
  EventTrigger.rfind_from c i (a +:+ String c b) = (i + Z.of_nat (String.length a))%Z.
Proof.
  intros Hi Hb. revert i Hi. induction a as [|x a IH]; intros i Hi.
  - rewrite app_empty. simpl. rewrite (rfind_from_no_char _ _ _ Hb). simpl.
    rewrite Ascii.eqb_refl. lia.
  - rewrite app_String. simpl EventTrigger.rfind_from. rewrite IH by lia.
    destruct (_ =? -1)%Z eqn:Heq; [apply Z.eqb_eq in Heq; lia|].
    simpl String.length. lia.
Qed.

Lemma basename_no_slash (p : string) : contains "/" (EventTrigger.basename p) = false.
Proof.
  unfold EventTrigger.basename, EventTrigger.rfind.
  pose proof (rfind_from_sdrop "/" 0 p ltac:(lia)) as H.
  by rewrite Z.sub_0_r in H.
Qed.

(** X13: the group identifier that the handler makes
    [process_excel_content] compute comes from the last component of
    the name of the blob: it has no slash, whatever directories the
    name of the blob has. *)
Theorem X13_group_id_without_directory (blob_name group_id : string) :
  EventTrigger.event_group_id blob_name = Some group_id →
  contains "/" group_id = false.
Proof.
  unfold EventTrigger.event_group_id. destruct (negb _); [done|].
  intros [= <-].
  destruct (group_id_part_chars (EventTrigger.basename blob_name)) as [_ Hchars].
  apply Hchars, basename_no_slash.
Qed.

Lemma X13_group_id_without_directory_witness :
  contains "/" "TEAM7.xlsx" = false.
Proof.
  apply (X13_group_id_without_directory "in/2024/report_TEAM7.xlsx" "TEAM7.xlsx").
  vm_compute. reflexivity.
Defined.

(** ** Extensions *)

(** [os.path.splitext] cuts the path in two. *)
Lemma splitext_round_trip (p : string) :
  splitext_root p +:+ EventTrigger.splitext_ext p = p.
Proof.
  unfold splitext_root, EventTrigger.splitext_ext.
  destruct (_ <? _)%Z; [|apply app_empty_r].
  destruct (EventTrigger.some_other _ _); [|apply app_empty_r].
  apply stake_sdrop.
Qed.

(** X14: a blob that the handler of the event trigger does not turn
    away at its check of the extension is a file that [is_excel_file]
    of Updated.py accepts. *)
Theorem X14_checked_extension_is_excel (blob_name group_id : string) :
  EventTrigger.event_group_id blob_name = Some group_id →
  UpdatedFiles.is_excel_file blob_name = true.
Proof.
  unfold EventTrigger.event_group_id. case_bool_decide as Hext; [|done].
  intros _. unfold UpdatedFiles.is_excel_file.
  rewrite <- (splitext_round_trip blob_name) at 1 2. rewrite lower_app.
  apply orb_true_iff.
  apply elem_of_cons in Hext as [Hext|Hext].
  - left. apply endswith_true. rewrite Hext. by eexists.
  - apply list_elem_of_singleton in Hext.
    right. apply endswith_true. rewrite Hext. by eexists.
Qed.

Lemma X14_checked_extension_is_excel_witness :
  UpdatedFiles.is_excel_file "in/report_TEAM7.XLSX" = true.
Proof.
  apply (X14_checked_extension_is_excel "in/report_TEAM7.XLSX" "TEAM7.XLSX").
  vm_compute. reflexivity.
Defined.

Lemma some_other_app (c : ascii) (a b : string) :
  EventTrigger.some_other c (a +:+ b)
    = EventTrigger.some_other c a || EventTrigger.some_other c b.
Proof.
  induction a as [|x a IH]; [done|]. rewrite app_String. simpl.
  rewrite IH. by rewrite orb_assoc.
Qed.

(** The extension of a name that ends with [_table.csv]. *)
Lemma splitext_ext_table_csv (x : string) :
  EventTrigger.splitext_ext (x +:+ "_table.csv") = ".csv".
Proof.
  unfold EventTrigger.splitext_ext, EventTrigger.rfind.
  assert (x +:+ "_table.csv" = (x +:+ "_table") +:+ String "." "csv") as Hassoc.
  { by rewrite app_assoc_s. }
  assert (EventTrigger.rfind_from "." 0 (x +:+ "_table.csv")
          = Z.of_nat (String.length x + 6)) as Hdot.
  { rewrite Hassoc, rfind_from_app_last by (done || lia).
    rewrite length_app_s. simpl. lia. }
  assert (EventTrigger.rfind_from "/" 0 (x +:+ "_table.csv")
          = EventTrigger.rfind_from "/" 0 x) as Hsep.
  { by apply rfind_from_app_no_char. }
  rewrite Hdot, Hsep.
  set (sep := EventTrigger.rfind_from "/" 0 x).
  assert (Z.to_nat (sep + 1) ≤ String.length x) as Hk.
  { destruct (rfind_from_range "/" 0 x ltac:(lia)) as [Hr|Hr]; fold sep in Hr; lia. }
  assert (sep < Z.of_nat (String.length x + 6))%Z as Hlt by lia.
  apply Z.ltb_lt in Hlt. rewrite Hlt.
  rewrite sdrop_app_le by done.
  set (y := EventTrigger.sdrop (Z.to_nat (sep + 1)) x).
  assert (String.length y = String.length x - Z.to_nat (sep + 1)) as Hy.
  { apply length_sdrop. }
  assert (y +:+ "_table.csv" = (y +:+ "_table") +:+ ".csv") as Hy2.
  { by rewrite app_assoc_s. }
  replace (Z.to_nat (Z.of_nat (String.length x + 6)) - Z.to_nat (sep + 1))
    with (String.length (y +:+ "_table")).
  2:{ rewrite length_app_s. simpl. lia. }
  rewrite Hy2, stake_app_length, some_other_app.
  replace (EventTrigger.some_other "." "_table") with true by done.
  rewrite orb_true_r.
  replace (Z.to_nat (Z.of_nat (String.length x + 6)))
    with (String.length (x +:+ "_table")).
  2:{ rewrite length_app_s. simpl. lia. }
  rewrite Hassoc. apply sdrop_app_length.
Qed.

(** X15: the handler of the event trigger does not process a blob
    with a name under which it stores its own output: the check of
    the extension turns every such name away. *)
Theorem X15_output_is_not_input (blob_name sheet_name : string) :
  EventTrigger.event_group_id (EventTriggerFiles.output_blob_name blob_name sheet_name)
    = None.
Proof.
  unfold EventTriggerFiles.output_blob_name, EventTrigger.event_group_id.
  rewrite <- !app_assoc_s. rewrite splitext_ext_table_csv. done.
Qed.

(** X16: [is_excel_file] of Updated.py turns away every name under
    which [save_dataframe_to_blob] stores a sheet. *)
Theorem X16_saved_blob_is_not_excel (original_blob_name sheet_name : string) :
  UpdatedFiles.is_excel_file
    (UpdatedFiles.output_blob_name original_blob_name sheet_name) = false.
Proof.
  unfold UpdatedFiles.output_blob_name, UpdatedFiles.is_excel_file.
  rewrite <- !app_assoc_s. rewrite lower_app.
  set (z := EventTrigger.lower _).
  change (EventTrigger.lower ".csv") with ".csv".
  apply orb_false_intro.
  - destruct (endswith (z +:+ ".csv") ".xls") eqn:He; [|done].
    apply endswith_true in He as [a He].
    apply app_inj_tail_length in He as [_ He]; done.
  - destruct (endswith (z +:+ ".csv") ".xlsx") eqn:He; [|done].
    apply endswith_true in He as [a He].
    change ".xlsx" with ("." +:+ "xlsx") in He. rewrite <- app_assoc_s in He.
    apply app_inj_tail_length in He as [_ He]; done.
Qed.

(** ** Names of the output *)

Lemma isalnum_underscore : EventTriggerFiles.isalnum "_" = false.
Proof. reflexivity. Qed.

Lemma safe_sheet_name_props (sheet_name : string) :
  let safe c := EventTriggerFiles.isalnum c || Ascii.eqb c "_" in
  String.length (EventTriggerFiles.safe_sheet_name sheet_name)
    = String.length sheet_name ∧
  all_chars safe (EventTriggerFiles.safe_sheet_name sheet_name) = true ∧
  (all_chars safe sheet_name = true ↔
   EventTriggerFiles.safe_sheet_name sheet_name = sheet_name) ∧
  EventTriggerFiles.safe_sheet_name (EventTriggerFiles.safe_sheet_name sheet_name)
    = EventTriggerFiles.safe_sheet_name sheet_name.
Proof.
  intros safe. induction sheet_name as [|c s (IH1 & IH2 & IH3 & IH4)]; [done|].
  cbn [EventTriggerFiles.safe_sheet_name String.length all_chars].
  rewrite IH1, IH2, IH4. split; [done|]. split; [|split].
  - unfold safe. destruct (EventTriggerFiles.isalnum c) eqn:Hc; [by rewrite Hc|done].
  - split.
    + intros [Hc Hs]%andb_true_iff. apply IH3 in Hs. rewrite Hs.
      unfold safe in Hc. destruct (EventTriggerFiles.isalnum c); [done|].
      simpl in Hc. by apply Ascii.eqb_eq in Hc as ->.
    + intros [= Hc Hs]. apply IH3 in Hs. rewrite Hs, andb_true_r.
      unfold safe. destruct (EventTriggerFiles.isalnum c); [done|].
      rewrite <- Hc. done.
  - destruct (EventTriggerFiles.isalnum c) eqn:Hc; [by rewrite Hc|].
    by rewrite isalnum_underscore.
Qed.

(** X17: the safe sheet name has the length of the sheet name and
    consists of alphanumeric characters and underscores; a sheet name
    that consists of such characters is left as it is, so making a
    name safe twice is the same as making it safe once. *)
Theorem X17_safe_sheet_name (sheet_name : string) :
  let safe c := EventTriggerFiles.isalnum c || Ascii.eqb c "_" in
  String.length (EventTriggerFiles.safe_sheet_name sheet_name)
    = String.length sheet_name ∧
  all_chars safe (EventTriggerFiles.safe_sheet_name sheet_name) = true ∧
  (all_chars safe sheet_name = true ↔
   EventTriggerFiles.safe_sheet_name sheet_name = sheet_name) ∧
  EventTriggerFiles.safe_sheet_name (EventTriggerFiles.safe_sheet_name sheet_name)
    = EventTriggerFiles.safe_sheet_name sheet_name.
Proof. apply safe_sheet_name_props. Qed.

(** X18: [save_dataframe_to_blob] of Updated.py gives the sheets of
    one file different names: the name of the blob determines the
    name of the sheet. *)
Theorem X18_saved_names_differ (original_blob_name sheet1 sheet2 : string) :
  UpdatedFiles.output_blob_name original_blob_name sheet1
    = UpdatedFiles.output_blob_name original_blob_name sheet2 →
  sheet1 = sheet2.
Proof.
  unfold UpdatedFiles.output_blob_name. intros Heq.
  do 3 apply String.app_inj in Heq.
  by apply app_inj_tail_length in Heq as [-> _].
Qed.

Lemma X18_saved_names_differ_witness : "Q1" = "Q1".
Proof.
  apply (X18_saved_names_differ "report_TEAM7.xls" "Q1" "Q1"). reflexivity.
Defined.

(** X19: the handler of the event trigger gives two sheets of one
    file the same name for the output exactly when their safe sheet
    names are the same; so a sheet and the sheet with the safe name of
    the first are stored under one name. *)
Theorem X19_output_names_collide (blob_name sheet1 sheet2 : string) :
  (EventTriggerFiles.output_blob_name blob_name sheet1
     = EventTriggerFiles.output_blob_name blob_name sheet2 ↔
   EventTriggerFiles.safe_sheet_name sheet1 = EventTriggerFiles.safe_sheet_name sheet2) ∧
  EventTriggerFiles.output_blob_name blob_name (EventTriggerFiles.safe_sheet_name sheet1)
    = EventTriggerFiles.output_blob_name blob_name sheet1.
Proof.
  unfold EventTriggerFiles.output_blob_name. split.
  - split.
    + intros Heq. do 2 apply String.app_inj in Heq.
      by apply app_inj_tail_length in Heq as [-> _].
    + by intros ->.
  - destruct (safe_sheet_name_props sheet1) as (_ & _ & _ & ->). done.
Qed.

(** X20: the handler takes the path of the URL apart at the slashes:
    when the path has at least three parts, the path is its first
    part, the container and the name of the blob, joined by slashes,
    and neither the first part nor the container has a slash; when it
    has fewer, there is nothing to process. *)
Theorem X20_blob_path_parts (blob_path : string) :
  match EventTriggerFiles.parse_blob_path blob_path with
  | Some (container_name, blob_name) =>
      ∃ first,
        blob_path = first +:+ "/" +:+ container_name +:+ "/" +:+ blob_name ∧
        contains "/" first = false ∧ contains "/" container_name = false
  | None => length (TableExtractor.split "/" blob_path) < 3
  end.
Proof.
  unfold EventTriggerFiles.parse_blob_path.
  pose proof (split_parts "/" blob_path) as Hparts.
  pose proof (split_join "/" blob_path) as Hjoin.
  destruct (TableExtractor.split "/" blob_path) as [|a [|b [|c rest]]];
    cbn [length Nat.ltb Nat.leb]; try lia.
  cbn [nth drop].
  apply Forall_cons in Hparts as [Ha [Hb _]%Forall_cons].
  exists a. split; [|done]. rewrite <- Hjoin. done.
Qed.

(** ** The frame of Updated.py *)

(** One assignment [df[name] = value] on a frame whose rows have the
    length of the list of headers: the rows keep that property, and
    in every row the cells under the headers [name] hold [value] and
    the other cells are as they were. *)
Lemma set_column_cells (name : string) (value : Cell)
    (columns : list string) (values : list (list Cell)) :
  Forall (λ row, length row = length columns) values →
  Forall2 (λ row row',
      length row' = length (set_column name value (columns, values)).1 ∧
      ∀ k c, (set_column name value (columns, values)).1 !! k = Some c →
        row' !! k = if String.eqb c name then Some value else row !! k)
    values (set_column name value (columns, values)).2.
Proof.
  intros Hrect. unfold set_column. case_bool_decide as Hin; cbn [fst snd].
  - apply Forall2_fmap_r, Forall_Forall2_diag.
    eapply Forall_impl; [exact Hrect|]. intros row Hrow. cbn beta in *. split.
    + rewrite length_zip_with. lia.
    + intros k c Hc. rewrite lookup_zip_with, Hc. cbn [mbind option_bind].
      destruct (lookup_lt_is_Some_2 row k) as [cell Hcell].
      { rewrite Hrow. by eapply lookup_lt_Some. }
      rewrite Hcell. cbn [mbind option_bind]. by destruct (String.eqb c name).
  - apply Forall2_fmap_r, Forall_Forall2_diag.
    eapply Forall_impl; [exact Hrect|]. intros row Hrow. cbn beta in *. split.
    + rewrite !length_app. simpl. lia.
    + intros k c Hc. apply lookup_app_Some in Hc as [Hc|[Hk Hc]].
      * assert (c ≠ name) as Hne.
        { intros ->. apply Hin. apply list_elem_of_lookup. by exists k. }
        apply String.eqb_neq in Hne. rewrite Hne.
        apply lookup_app_l. rewrite Hrow. by eapply lookup_lt_Some.
      * apply list_lookup_singleton_Some in Hc as [Hk0 <-].
        rewrite String.eqb_refl. rewrite lookup_app_r by lia.
        replace (k - length row) with 0 by lia. done.
Qed.

Lemma set_column_length (name : string) (value : Cell)
    (columns : list string) (values : list (list Cell)) :
  length (set_column name value (columns, values)).1
    = length columns + (if bool_decide (name ∈ columns) then 0 else 1).
Proof.
  unfold set_column. case_bool_decide; cbn [fst]; [lia|].
  rewrite length_app. simpl. lia.
Qed.

Lemma set_column_elem_iff (name x : string) (value : Cell)
    (columns : list string) (values : list (list Cell)) :
  x ∈ (set_column name value (columns, values)).1 ↔ x ∈ columns ∨ x = name.
Proof.
  unfold set_column. case_bool_decide as Hin; cbn [fst].
  - split; [by left|]. intros [?| ->]; done.
  - rewrite elem_of_app, list_elem_of_singleton. done.
Qed.

Lemma set_column_lookup_other (name c : string) (value : Cell)
    (columns : list string) (values : list (list Cell)) (k : nat) :
  (set_column name value (columns, values)).1 !! k = Some c → c ≠ name →
  columns !! k = Some c.
Proof.
  unfold set_column. case_bool_decide; cbn [fst]; [done|].
  intros [Hc|[_ Hc]]%lookup_app_Some Hne; [done|].
  apply list_lookup_singleton_Some in Hc as [_ <-]. done.
Qed.

(** X21: when no trimmed header is [source_file] or [source_sheet],
    [transform_dataframe] trims the headers, appends the two headers
    [source_file] and [source_sheet] in this order, and appends the
    name of the file and the name of the sheet to every row. *)
Theorem X21_source_columns_appended (h : heap) (df : loc) (columns : list string)
    (values : list (list Cell)) (sheet_name filename : string) :
  h !! df = Some (OFrame columns values) →
  "source_file" ∉ map strip columns → "source_sheet" ∉ map strip columns →
  Updated.transform_dataframe df sheet_name filename h
    = Ok (df, <[df := OFrame (map strip columns ++ ["source_file"; "source_sheet"])
                        (map (λ row, row ++ [CStr filename; CStr sheet_name]) values)]> h).
Proof.
  intros Hdf Hfile Hsheet. rewrite (transform_dataframe_run _ _ _ _ _ _ Hdf).
  unfold transformed, set_column.
  rewrite bool_decide_false by done.
  rewrite bool_decide_false.
  2:{ rewrite elem_of_app, list_elem_of_singleton. intros [?|?]; done. }
  cbn [fst snd]. rewrite <- app_assoc. do 4 f_equal.
  rewrite map_map. apply map_ext. intros row. by rewrite <- app_assoc.
Qed.

Lemma X21_source_columns_appended_witness :
  Updated.transform_dataframe 0 "Sheet1" "book.xls"
      (<[0 := OFrame [" ID"; "Name "] [ [CStr "1"; CStr "A"] ]]> ∅)
    = Ok (0, <[0 := OFrame (map strip [" ID"; "Name "] ++ ["source_file"; "source_sheet"])
                      (map (λ row, row ++ [CStr "book.xls"; CStr "Sheet1"])
                         [ [CStr "1"; CStr "A"] ])]>
               (<[0 := OFrame [" ID"; "Name "] [ [CStr "1"; CStr "A"] ]]> ∅)).
Proof.
  apply (X21_source_columns_appended _ 0 [" ID"; "Name "] [ [CStr "1"; CStr "A"] ]).
  - apply lookup_insert_eq.
  - vm_compute. intros Hin. repeat (apply elem_of_cons in Hin as [Hin|Hin]; [discriminate Hin|]).
    by apply elem_of_nil in Hin.
  - vm_compute. intros Hin. repeat (apply elem_of_cons in Hin as [Hin|Hin]; [discriminate Hin|]).
    by apply elem_of_nil in Hin.
Defined.

(** X22: on a frame whose rows have the length of the list of
    headers, [transform_dataframe] keeps the rows and their number,
    and every row still has the length of the list of headers.  A
    header is added for [source_file] and for [source_sheet] only
    when no trimmed header has that name already.  In every row the
    cells under the headers [source_sheet] hold the name of the
    sheet, the cells under the headers [source_file] hold the name of
    the file, also where the sheet had a column of that name, and
    all other cells are as they were. *)
Theorem X22_frame_cells (h : heap) (df : loc) (columns : list string)
    (values : list (list Cell)) (sheet_name filename : string) :
  h !! df = Some (OFrame columns values) →
  Forall (λ row, length row = length columns) values →
  ∃ columns' values',
    Updated.transform_dataframe df sheet_name filename h
      = Ok (df, <[df := OFrame columns' values']> h) ∧
    length columns'
      = length columns
        + (if bool_decide ("source_file" ∈ map strip columns) then 0 else 1)
        + (if bool_decide ("source_sheet" ∈ map strip columns) then 0 else 1) ∧
    Forall2 (λ row row',
        length row' = length columns' ∧
        ∀ k c, columns' !! k = Some c →
          row' !! k = if String.eqb c "source_sheet" then Some (CStr sheet_name)
                      else if String.eqb c "source_file" then Some (CStr filename)
                      else row !! k)
      values values'.
Proof.
  intros Hdf Hrect. eexists _, _.
  split; [by apply transform_dataframe_run|].
  unfold transformed.
  assert (Forall (λ row, length row = length (map strip columns)) values) as Hrect0.
  { eapply Forall_impl; [exact Hrect|]. intros row Hr. simpl in *.
    by rewrite length_map. }
  pose proof (set_column_cells "source_file" (CStr filename) _ _ Hrect0) as H1.
  pose proof (set_column_length "source_file" (CStr filename) (map strip columns) values)
    as Hlen1.
  pose proof (set_column_elem_iff "source_file" "source_sheet" (CStr filename)
                (map strip columns) values) as Hin1.
  destruct (set_column "source_file" (CStr filename) (map strip columns, values))
    as [c1 v1]. cbn [fst snd] in *.
  assert (Forall (λ row, length row = length c1) v1) as Hrect1.
  { eapply Forall2_Forall_r; [exact H1|]. apply Forall_forall.
    intros row _ row' [? _]. done. }
  pose proof (set_column_cells "source_sheet" (CStr sheet_name) _ _ Hrect1) as H2.
  pose proof (set_column_length "source_sheet" (CStr sheet_name) c1 v1) as Hlen2.
  pose proof (λ c k, set_column_lookup_other "source_sheet" c (CStr sheet_name) c1 v1 k)
    as Hother.
  destruct (set_column "source_sheet" (CStr sheet_name) (c1, v1)) as [c2 v2].
  cbn [fst snd] in *. split.
  - rewrite Hlen2, Hlen1, length_map. f_equal.
    destruct (bool_decide ("source_sheet" ∈ c1)) eqn:Hd1;
      destruct (bool_decide ("source_sheet" ∈ map strip columns)) eqn:Hd2; try done.
    + apply bool_decide_eq_true in Hd1. apply bool_decide_eq_false in Hd2.
      apply Hin1 in Hd1 as [?|?]; done.
    + apply bool_decide_eq_false in Hd1. apply bool_decide_eq_true in Hd2.
      exfalso. apply Hd1, Hin1. by left.
  - eapply Forall2_trans; [|exact H1|exact H2].
    intros row row1 row2 [Hl1 Hc1] [Hl2 Hc2]. cbn beta in *. split; [done|].
    intros k c Hc. rewrite (Hc2 k c Hc).
    destruct (String.eqb c "source_sheet") eqn:Hs; [done|].
    apply String.eqb_neq in Hs. apply (Hc1 k c). by apply Hother.
Qed.

Lemma X22_frame_cells_witness :
  ∃ columns' values',
    Updated.transform_dataframe 0 "Sheet1" "book.xls"
        (<[0 := OFrame ["ID"; " source_file"] [ [CStr "1"; CStr "old"] ]]> ∅)
      = Ok (0, <[0 := OFrame columns' values']>
                 (<[0 := OFrame ["ID"; " source_file"] [ [CStr "1"; CStr "old"] ]]> ∅)) ∧
    length columns'
      = length ["ID"; " source_file"]
        + (if bool_decide ("source_file" ∈ map strip ["ID"; " source_file"]) then 0 else 1)
        + (if bool_decide ("source_sheet" ∈ map strip ["ID"; " source_file"]) then 0 else 1) ∧
    Forall2 (λ row row',
        length row' = length columns' ∧
        ∀ k c, columns' !! k = Some c →
          row' !! k = if String.eqb c "source_sheet" then Some (CStr "Sheet1")
                      else if String.eqb c "source_file" then Some (CStr "book.xls")
                      else row !! k)
      [ [CStr "1"; CStr "old"] ] values'.
Proof.
  apply (X22_frame_cells _ 0 ["ID"; " source_file"] [ [CStr "1"; CStr "old"] ]).
  - apply lookup_insert_eq.
  - repeat constructor.
Defined.

Lemma set_column_rows (name : string) (value : Cell)
    (columns : list string) (values : list (list Cell)) :
  length (set_column name value (columns, values)).2 = length values.
Proof. unfold set_column. case_bool_decide; cbn [snd]; by rewrite length_map. Qed.

Lemma transformed_rows (columns : list string) (values : list (list Cell))
    (sheet_name filename : string) :
  length (transformed columns values sheet_name filename).2 = length values.
Proof.
  unfold transformed.
  pose proof (set_column_rows "source_file" (CStr filename) (map strip columns) values) as H1.
  destruct (set_column "source_file" _ _) as [c1 v1]. cbn [snd] in H1.
  by rewrite set_column_rows.
Qed.

(** X23: one sheet in [process_excel_file] of Updated.py.  The sheet
    raises exactly when the detection raises; building the frame
    from a detected table never fails, since the rows of the table
    have the length of the list of headers.  A sheet without table is
    passed over and the store stays as it is.  A sheet with a table
    gives a new frame, at a reference that was not in use: its
    headers begin with the trimmed headers of the table, it has the
    columns [source_file] and [source_sheet], and it has one row for
    each data row of the table. *)
Theorem X23_worksheet_flow (rows : list (list Cell)) (sheet_name blob_name : string)
    (h : heap) :
  match Updated.detect_table_from_rows rows with
  | Raise ex => UpdatedFiles.process_worksheet rows sheet_name blob_name h = Raise ex
  | Ok None => UpdatedFiles.process_worksheet rows sheet_name blob_name h = Ok (None, h)
  | Ok (Some t) =>
      ∃ df columns values,
        UpdatedFiles.process_worksheet rows sheet_name blob_name h
          = Ok (Some df, <[df := OFrame columns values]> h) ∧
        h !! df = None ∧
        take (length (headers t)) columns = map strip (headers t) ∧
        "source_file" ∈ columns ∧ "source_sheet" ∈ columns ∧
        length values = length (data t)
  end.
Proof.
  unfold UpdatedFiles.process_worksheet.
  destruct (Updated.detect_table_from_rows rows) as [[t|]|ex] eqn:Hdet; [|done|done].
  apply Updated_detect_shape in Hdet as (_ & _ & _ & _ & _ & _ & Hrect & _).
  unfold mbind at 1, Py_bind at 1, lift at 1.
  unfold mbind at 1, Py_bind at 1, Updated.table_to_dataframe.
  assert (forallb (λ row : list Cell, length row =? length (headers t)) (data t) = true)
    as ->.
  { apply forallb_forall. intros row Hin%list_elem_of_In.
    rewrite Forall_forall in Hrect. apply Nat.eqb_eq. by apply Hrect. }
  unfold alloc. set (df := fresh (dom h)).
  assert (h !! df = None) as Hdf by (apply not_elem_of_dom, is_fresh).
  unfold mbind, Py_bind.
  rewrite (transform_dataframe_run _ df (headers t) (data t)) by apply lookup_insert_eq.
  rewrite insert_insert_eq.
  eexists df, _, _. split; [done|]. split; [done|].
  split; [apply transformed_prefix|].
  split; [apply transformed_source|].
  split; [apply transformed_source|apply transformed_rows].
Qed.
